(** * Pseudo-labeling with confidence masks and a scheduled threshold

    A shallow embedding of [torch_em/self_training/pseudo_labeling.py]:
    the three pseudo-labelers ([DefaultPseudoLabeler],
    [ProbabilisticPseudoLabeler], [ScheduledPseudoLabeler]), their
    masking helpers and the plateau scheduler of the third one.

    Conventions of the embedding.
    - A Python [float] and an element of a floating tensor is a [pyfloat]:
      a rational, one of the two infinities, or NaN.  The special values
      follow IEEE 754 (comparisons with NaN are false, [inf * 0] is NaN);
      finite arithmetic is exact, so rounding, overflow and the sign of
      zero are abstracted away.
    - A tensor is a nested list; iterating a tensor walks its first axis.
    - A Python object mutated by a method is passed in and returned; a
      method that can raise returns a [result] next to the object as the
      exception leaves it.
    - [print] calls are not modelled.
    - Where a property depends on how the machine rounds (the [eps] test of
      the scheduler, the comparison of a tensor with the threshold), the
      classes are embedded a second time, in [IEEE], on binary64 and
      binary32 numbers with their rounding. *)

From Stdlib Require Import ZArith QArith Qreduction Bool List String Lia Lqa.
From Stdlib Require SpecFloat.
Import ListNotations.

Set Implicit Arguments.
#[local] Set Warnings "-register-all".

(** ** Floats *)

Inductive pyfloat : Type :=
| Fin (q : Q)
| PInf
| NInf
| NaN.

Definition is_nan (x : pyfloat) : bool :=
  match x with NaN => true | _ => false end.

(** Sign of a rational, as the comparison of it with zero. *)
Definition Qsign (q : Q) : comparison := (q ?= 0)%Q.

(** The infinity (or NaN) of a given sign. *)
Definition signed_inf (c : comparison) : pyfloat :=
  match c with Gt => PInf | Lt => NInf | Eq => NaN end.

Definition fneg (x : pyfloat) : pyfloat :=
  match x with
  | Fin q => Fin (Qred (- q))
  | PInf => NInf
  | NInf => PInf
  | NaN => NaN
  end.

Definition fadd (x y : pyfloat) : pyfloat :=
  match x, y with
  | NaN, _ | _, NaN => NaN
  | Fin a, Fin b => Fin (Qred (a + b))
  | PInf, NInf | NInf, PInf => NaN
  | PInf, _ | _, PInf => PInf
  | NInf, _ | _, NInf => NInf
  end.

Definition fsub (x y : pyfloat) : pyfloat :=
  match x, y with
  | NaN, _ | _, NaN => NaN
  | Fin a, Fin b => Fin (Qred (a - b))
  | PInf, PInf | NInf, NInf => NaN
  | PInf, _ | _, NInf => PInf
  | NInf, _ | _, PInf => NInf
  end.

Definition fmul (x y : pyfloat) : pyfloat :=
  match x, y with
  | NaN, _ | _, NaN => NaN
  | Fin a, Fin b => Fin (Qred (a * b))
  | Fin a, PInf | PInf, Fin a => signed_inf (Qsign a)
  | Fin a, NInf | NInf, Fin a => signed_inf (CompOpp (Qsign a))
  | PInf, PInf | NInf, NInf => PInf
  | PInf, NInf | NInf, PInf => NInf
  end.

(** Division of tensor elements: dividing by zero raises nothing and gives
    an infinity or NaN. *)
Definition fdiv (x y : pyfloat) : pyfloat :=
  match x, y with
  | NaN, _ | _, NaN => NaN
  | Fin a, Fin b =>
      match Qsign b with
      | Eq => signed_inf (Qsign a)
      | _ => Fin (Qred (a / b))
      end
  | Fin _, _ => Fin 0
  | PInf, Fin b => match Qsign b with Lt => NInf | _ => PInf end
  | NInf, Fin b => match Qsign b with Lt => PInf | _ => NInf end
  | _, _ => NaN
  end.

(** IEEE comparison: unordered as soon as one side is NaN. *)
Definition fcompare (x y : pyfloat) : option comparison :=
  match x, y with
  | NaN, _ | _, NaN => None
  | Fin a, Fin b => Some (a ?= b)%Q
  | PInf, PInf | NInf, NInf => Some Eq
  | PInf, _ | _, NInf => Some Gt
  | NInf, _ | _, PInf => Some Lt
  end.

Definition fltb (x y : pyfloat) : bool :=
  match fcompare x y with Some Lt => true | _ => false end.
Definition fgtb (x y : pyfloat) : bool :=
  match fcompare x y with Some Gt => true | _ => false end.
Definition fleb (x y : pyfloat) : bool :=
  match fcompare x y with Some Lt | Some Eq => true | _ => false end.
Definition fgeb (x y : pyfloat) : bool :=
  match fcompare x y with Some Gt | Some Eq => true | _ => false end.
Definition feqb (x y : pyfloat) : bool :=
  match fcompare x y with Some Eq => true | _ => false end.

(** Python's builtin [max(a, b)]: the first argument is kept unless the
    second compares greater. *)
Definition pymax (a b : pyfloat) : pyfloat :=
  if fgtb b a then b else a.

Definition of_Z (z : Z) : pyfloat := Fin (inject_Z z).

Definition f0 : pyfloat := Fin 0.
Definition f1 : pyfloat := Fin 1.

(** ** Exceptions *)

Inductive exn : Type :=
| ValueError (msg : string)
| TypeError
| RuntimeError.

Inductive result (A : Type) : Type :=
| Ok (a : A)
| Raise (e : exn).
Arguments Ok {A} a.
Arguments Raise {A} e.

(** ** Tensors *)

Inductive tensor (A : Type) : Type :=
| Scalar (a : A)
| Stack (ts : list (tensor A)).
Arguments Scalar {A} a.
Arguments Stack {A} ts.

(** An elementwise operation. *)
Fixpoint tmap {A B : Type} (f : A -> B) (t : tensor A) : tensor B :=
  match t with
  | Scalar a => Scalar (f a)
  | Stack ts => Stack (map (tmap f) ts)
  end.

(** The element at a multi-index. *)
Fixpoint tget {A : Type} (t : tensor A) (p : list nat) : option A :=
  match p, t with
  | [], Scalar a => Some a
  | i :: p', Stack ts =>
      match nth_error ts i with
      | Some t' => tget t' p'
      | None => None
      end
  | _, _ => None
  end.

(** The shape, read along the first element of every axis. *)
Fixpoint shape {A : Type} (t : tensor A) : list nat :=
  match t with
  | Scalar _ => []
  | Stack ts =>
      List.length ts :: match ts with
                   | [] => []
                   | t' :: _ => shape t'
                   end
  end.

Fixpoint shape_eqb (a b : list nat) : bool :=
  match a, b with
  | [], [] => true
  | x :: a', y :: b' => Nat.eqb x y && shape_eqb a' b'
  | _, _ => false
  end.

(** Elementwise combination of two tensors of one shape. *)
Fixpoint tzip {A : Type} (f : A -> A -> A) (a b : tensor A) {struct a}
  : option (tensor A) :=
  match a, b with
  | Scalar x, Scalar y => Some (Scalar (f x y))
  | Stack xs, Stack ys =>
      option_map Stack
        ((fix go (xs : list (tensor A)) (ys : list (tensor A)) {struct xs}
            : option (list (tensor A)) :=
            match xs, ys with
            | [], [] => Some []
            | x :: xs', y :: ys' =>
                match tzip f x y, go xs' ys' with
                | Some z, Some zs => Some (z :: zs)
                | _, _ => None
                end
            | _, _ => None
            end) xs ys)
  | _, _ => None
  end.

(** Iterating a tensor ([for sample in t]) walks its first axis; a
    zero-dimensional tensor cannot be iterated. *)
Definition iter {A : Type} (t : tensor A) : result (list (tensor A)) :=
  match t with
  | Scalar _ => Raise TypeError
  | Stack ts => Ok ts
  end.

(** What a [for] loop may be given here: a Python list of tensors, or a
    tensor, which is then walked along its first axis. *)
Inductive iterable : Type :=
| OfList (ts : list (tensor pyfloat))
| OfTensor (t : tensor pyfloat).

Definition iterate (xs : iterable) : result (list (tensor pyfloat)) :=
  match xs with
  | OfList ts => Ok ts
  | OfTensor t => iter t
  end.

(** [torch.stack(ts, dim=0)]: the list must be non-empty and its tensors
    of one shape. *)
Definition stack {A : Type} (ts : list (tensor A)) : result (tensor A) :=
  match ts with
  | [] => Raise RuntimeError
  | t :: rest =>
      if forallb (fun u => shape_eqb (shape u) (shape t)) rest
      then Ok (Stack ts)
      else Raise RuntimeError
  end.

(** [t.sum(dim=0)] for a tensor with a non-empty first axis: the
    elementwise sum of its slices.  ([None] stands for the cases a nested
    list cannot answer: an empty first axis, whose trailing shape is lost,
    and ragged slices, which no tensor has.) *)
Definition sum_dim0 (t : tensor pyfloat) : option (tensor pyfloat) :=
  match t with
  | Scalar a => Some (Scalar a)
  | Stack [] => None
  | Stack (t0 :: ts) =>
      fold_left (fun acc u =>
                   match acc with
                   | Some s => tzip fadd s u
                   | None => None
                   end) ts (Some t0)
  end.

(** [t / n] for a Python integer [n]. *)
Definition tdiv (t : tensor pyfloat) (n : Z) : tensor pyfloat :=
  tmap (fun x => fdiv x (of_Z n)) t.

(** A tensor of any of the element types that occur. *)
Inductive anytensor : Type :=
| TBool (t : tensor bool)
| TFloat (t : tensor pyfloat)
| TInt (t : tensor Z).

(** Whether a mask keeps the element at a multi-index: its entry there is
    [True], or a number equal to one. *)
Definition keeps (m : anytensor) (p : list nat) : option bool :=
  match m with
  | TBool t => tget t p
  | TFloat t => option_map (fun x => feqb x f1) (tget t p)
  | TInt t => option_map (fun z => Z.eqb z 1) (tget t p)
  end.

(** The keyword arguments every labeler records at construction; the
    entry for the activation is always [None] and is left out. *)
Record kwargs : Type := {
  kw_confidence_threshold : option pyfloat;
  kw_threshold_from_both_sides : bool
}.

(** Two-sided threshold test of one prediction:
    [(x >= upper) + (x <= lower)], the sum of two booleans being their
    disjunction. *)
Definition passes_both_sides (upper lower x : pyfloat) : bool :=
  fgeb x upper || fleb x lower.

Definition bool_to_float (b : bool) : pyfloat := if b then f1 else f0.

(** The threshold test in words: one-sided masking keeps what is at or
    above the threshold, two-sided masking also what is at or below one
    minus the threshold. *)
Definition kept (both_sides : bool) (ct x : pyfloat) : bool :=
  if both_sides then fgeb x ct || fleb x (fsub f1 ct) else fgeb x ct.

(** A one-dimensional tensor. *)
Definition vec {A : Type} (l : list A) : tensor A := Stack (map Scalar l).

(** Every entry of a mask is one. *)
Definition all_ones (m : tensor pyfloat) : Prop :=
  forall p x, tget m p = Some x -> x = f1.

Definition half : pyfloat := Fin (1 # 2).

(** ** DefaultPseudoLabeler *)

Module Default.

Record DefaultPseudoLabeler : Type := {
  activation : option (tensor pyfloat -> tensor pyfloat);
  confidence_threshold : option pyfloat;
  threshold_from_both_sides : bool;
  init_kwargs : kwargs
}.

Definition __init__ (activation : option (tensor pyfloat -> tensor pyfloat))
    (confidence_threshold : option pyfloat) (threshold_from_both_sides : bool)
  : DefaultPseudoLabeler :=
  {| activation := activation;
     confidence_threshold := confidence_threshold;
     threshold_from_both_sides := threshold_from_both_sides;
     init_kwargs :=
       {| kw_confidence_threshold := confidence_threshold;
          kw_threshold_from_both_sides := threshold_from_both_sides |} |}.

Definition _compute_label_mask_both_sides (self : DefaultPseudoLabeler)
    (pseudo_labels : tensor pyfloat) : result anytensor :=
  match confidence_threshold self with
  | None => Raise TypeError
  | Some ct =>
      let upper_threshold := ct in
      let lower_threshold := fsub f1 ct in
      Ok (TFloat (tmap bool_to_float
                    (tmap (passes_both_sides upper_threshold lower_threshold)
                          pseudo_labels)))
  end.

Definition _compute_label_mask_one_side (self : DefaultPseudoLabeler)
    (pseudo_labels : tensor pyfloat) : result anytensor :=
  match confidence_threshold self with
  | None => Raise TypeError
  | Some ct => Ok (TBool (tmap (fun x => fgeb x ct) pseudo_labels))
  end.

Definition __call__ (self : DefaultPseudoLabeler)
    (teacher : tensor pyfloat -> tensor pyfloat) (input_ : tensor pyfloat)
  : result (tensor pyfloat * option anytensor) :=
  let pseudo_labels := teacher input_ in
  let pseudo_labels :=
    match activation self with
    | Some act => act pseudo_labels
    | None => pseudo_labels
    end in
  match confidence_threshold self with
  | None => Ok (pseudo_labels, None)
  | Some _ =>
      match (if threshold_from_both_sides self
             then _compute_label_mask_both_sides self pseudo_labels
             else _compute_label_mask_one_side self pseudo_labels) with
      | Ok label_mask => Ok (pseudo_labels, Some label_mask)
      | Raise e => Raise e
      end
  end.

(** [step] is [pass]: it returns [None] and the labeler is as before. *)
Definition step (self : DefaultPseudoLabeler) (epoch : Z)
  : unit * DefaultPseudoLabeler :=
  (tt, self).

(** *** Vocabulary of the properties *)

(** A two-sided labeler with threshold 0.5 and a one-sided one with
    threshold 0.75. *)
Definition two_sided_half : DefaultPseudoLabeler :=
  __init__ None (Some half) true.
Definition one_sided : DefaultPseudoLabeler :=
  __init__ None (Some (Fin (3 # 4))) false.

(** A teacher that predicts its input. *)
Definition echo (x : tensor pyfloat) : tensor pyfloat := x.

End Default.

(** ** ProbabilisticPseudoLabeler *)

(** The teacher of the probabilistic labeler is an object with a state:
    [forward] stores what the prior needs, every [sample] draws from it
    and moves the random state on. *)
Record sampler (St : Type) : Type := {
  forward : St -> tensor pyfloat -> St;
  sample : St -> tensor pyfloat * St
}.

Module Probabilistic.

Record ProbabilisticPseudoLabeler : Type := {
  activation : option (tensor pyfloat -> tensor pyfloat);
  confidence_threshold : option pyfloat;
  threshold_from_both_sides : bool;
  prior_samples : Z;
  consensus_masking : bool;
  init_kwargs : kwargs
}.

Definition __init__ (activation : option (tensor pyfloat -> tensor pyfloat))
    (confidence_threshold : option pyfloat) (threshold_from_both_sides : bool)
    (prior_samples : Z) (consensus_masking : bool)
  : ProbabilisticPseudoLabeler :=
  {| activation := activation;
     confidence_threshold := confidence_threshold;
     threshold_from_both_sides := threshold_from_both_sides;
     prior_samples := prior_samples;
     consensus_masking := consensus_masking;
     init_kwargs :=
       {| kw_confidence_threshold := confidence_threshold;
          kw_threshold_from_both_sides := threshold_from_both_sides |} |}.

(** The two helpers loop over their argument, [for sample in
    pseudo_labels], whatever it is. *)
Definition _compute_label_mask_both_sides (self : ProbabilisticPseudoLabeler)
    (pseudo_labels : iterable) : result (list (tensor pyfloat)) :=
  match confidence_threshold self with
  | None => Raise TypeError
  | Some ct =>
      let upper_threshold := ct in
      let lower_threshold := fsub f1 ct in
      match iterate pseudo_labels with
      | Raise e => Raise e
      | Ok samples =>
          Ok (map (fun sample =>
                     tmap (fun x =>
                             if passes_both_sides upper_threshold
                                  lower_threshold x
                             then f1 else f0) sample)
                  samples)
      end
  end.

Definition _compute_label_mask_one_side (self : ProbabilisticPseudoLabeler)
    (pseudo_labels : iterable) : result (list (tensor pyfloat)) :=
  match iterate pseudo_labels with
  | Raise e => Raise e
  | Ok samples =>
      match confidence_threshold self with
      | None => match samples with [] => Ok [] | _ => Raise TypeError end
      | Some ct =>
          Ok (map (fun sample =>
                     tmap (fun x => if fgeb x ct then f1 else f0) sample)
                  samples)
      end
  end.

Section Call.
Variable St : Type.
Variable teacher : sampler St.

(** [[f(teacher.sample()) for _ in range(n)]] *)
Fixpoint draw (f : tensor pyfloat -> tensor pyfloat) (n : nat) (st : St)
  : list (tensor pyfloat) * St :=
  match n with
  | O => ([], st)
  | S n' =>
      let (x, st1) := sample teacher st in
      let (xs, st2) := draw f n' st1 in
      (f x :: xs, st2)
  end.

(** [torch.stack(ts, dim=0).sum(dim=0) / n] *)
Definition stack_mean (ts : list (tensor pyfloat)) (n : Z)
  : result (tensor pyfloat) :=
  match stack ts with
  | Raise e => Raise e
  | Ok stacked =>
      match sum_dim0 stacked with
      | None => Raise RuntimeError
      | Some summed => Ok (tdiv summed n)
      end
  end.

(** [torch.where(label_mask == 1, 1, 0)] *)
Definition consensus (label_mask : tensor pyfloat) : tensor Z :=
  tmap (fun x => if feqb x f1 then 1%Z else 0%Z) label_mask.

Definition __call__ (self : ProbabilisticPseudoLabeler) (st : St)
    (input_ : tensor pyfloat)
  : result (tensor pyfloat * option anytensor) * St :=
  let st := forward teacher st input_ in
  let act := match activation self with
             | Some a => a
             | None => fun x => x
             end in
  let (pseudo_labels, st) := draw act (Z.to_nat (prior_samples self)) st in
  match stack_mean pseudo_labels (prior_samples self) with
  | Raise e => (Raise e, st)
  | Ok pseudo_labels =>
      match confidence_threshold self with
      | None => (Ok (pseudo_labels, None), st)
      | Some _ =>
          (* [pseudo_labels] is the averaged tensor by now *)
          match (if threshold_from_both_sides self
                 then _compute_label_mask_both_sides self
                        (OfTensor pseudo_labels)
                 else _compute_label_mask_one_side self
                        (OfTensor pseudo_labels)) with
          | Raise e => (Raise e, st)
          | Ok label_mask =>
              match stack_mean label_mask (prior_samples self) with
              | Raise e => (Raise e, st)
              | Ok label_mask =>
                  if consensus_masking self
                  then (Ok (pseudo_labels,
                            Some (TInt (consensus label_mask))), st)
                  else (Ok (pseudo_labels, Some (TFloat label_mask)), st)
              end
          end
      end
  end.

(** What the specification describes: the threshold test is applied to
    every drawn sample, and the per-sample masks are averaged (and, with
    consensus masking, collapsed to full agreement). *)
Definition spec_call (self : ProbabilisticPseudoLabeler) (st : St)
    (input_ : tensor pyfloat)
  : result (tensor pyfloat * option anytensor) * St :=
  let st := forward teacher st input_ in
  let act := match activation self with
             | Some a => a
             | None => fun x => x
             end in
  let (samples, st) := draw act (Z.to_nat (prior_samples self)) st in
  match stack_mean samples (prior_samples self) with
  | Raise e => (Raise e, st)
  | Ok pseudo_labels =>
      match confidence_threshold self with
      | None => (Ok (pseudo_labels, None), st)
      | Some _ =>
          match (if threshold_from_both_sides self
                 then _compute_label_mask_both_sides self (OfList samples)
                 else _compute_label_mask_one_side self (OfList samples))
          with
          | Raise e => (Raise e, st)
          | Ok masks =>
              match stack_mean masks (prior_samples self) with
              | Raise e => (Raise e, st)
              | Ok label_mask =>
                  if consensus_masking self
                  then (Ok (pseudo_labels,
                            Some (TInt (consensus label_mask))), st)
                  else (Ok (pseudo_labels, Some (TFloat label_mask)), st)
              end
          end
      end
  end.
End Call.

(** [step] is [pass]. *)
Definition step (self : ProbabilisticPseudoLabeler) (epoch : Z)
  : unit * ProbabilisticPseudoLabeler :=
  (tt, self).

(** *** Vocabulary of the properties *)

(** A teacher that hands out a prepared list of samples, one per call. *)
Definition queue_teacher : sampler (list (tensor pyfloat)) :=
  {| forward := fun st _ => st;
     sample := fun st =>
                 match st with
                 | x :: rest => (x, rest)
                 | [] => (Scalar NaN, [])
                 end |}.

(** Two samples for a batch of two images of one pixel each. *)
Definition sample_a : tensor pyfloat := Stack [vec [f1]; vec [f1]].
Definition sample_b : tensor pyfloat := Stack [vec [f0]; vec [f1]].

(** A sample for a batch of one image of one pixel. *)
Definition sample_one : tensor pyfloat := Stack [vec [f1]].

(** Two prior samples, one-sided threshold 0.75, without and with
    consensus masking. *)
Definition soft : ProbabilisticPseudoLabeler :=
  __init__ None (Some (Fin (3 # 4))) false 2 false.
Definition strict : ProbabilisticPseudoLabeler :=
  __init__ None (Some (Fin (3 # 4))) false 2 true.

End Probabilistic.

(** ** ScheduledPseudoLabeler *)

Module Scheduled.

Local Open Scope string_scope.
Local Open Scope Z_scope.

Record ScheduledPseudoLabeler : Type := {
  activation : option (tensor pyfloat -> tensor pyfloat);
  confidence_threshold : option pyfloat;
  threshold_from_both_sides : bool;
  init_kwargs : kwargs;
  mode : string;
  factor : pyfloat;
  patience : Z;
  threshold : pyfloat;
  threshold_mode : string;
  min_ct : pyfloat;
  eps : pyfloat;
  verbose : bool;
  best : pyfloat;
  num_bad_epochs : Z;
  last_epoch : Z
}.

(** Attribute assignments. *)
Definition set_confidence_threshold (self : ScheduledPseudoLabeler)
    (v : option pyfloat) : ScheduledPseudoLabeler :=
  {| activation := activation self;
     confidence_threshold := v;
     threshold_from_both_sides := threshold_from_both_sides self;
     init_kwargs := init_kwargs self;
     mode := mode self; factor := factor self; patience := patience self;
     threshold := threshold self; threshold_mode := threshold_mode self;
     min_ct := min_ct self; eps := eps self; verbose := verbose self;
     best := best self; num_bad_epochs := num_bad_epochs self;
     last_epoch := last_epoch self |}.

Definition set_best (self : ScheduledPseudoLabeler) (v : pyfloat)
  : ScheduledPseudoLabeler :=
  {| activation := activation self;
     confidence_threshold := confidence_threshold self;
     threshold_from_both_sides := threshold_from_both_sides self;
     init_kwargs := init_kwargs self;
     mode := mode self; factor := factor self; patience := patience self;
     threshold := threshold self; threshold_mode := threshold_mode self;
     min_ct := min_ct self; eps := eps self; verbose := verbose self;
     best := v; num_bad_epochs := num_bad_epochs self;
     last_epoch := last_epoch self |}.

Definition set_num_bad_epochs (self : ScheduledPseudoLabeler) (v : Z)
  : ScheduledPseudoLabeler :=
  {| activation := activation self;
     confidence_threshold := confidence_threshold self;
     threshold_from_both_sides := threshold_from_both_sides self;
     init_kwargs := init_kwargs self;
     mode := mode self; factor := factor self; patience := patience self;
     threshold := threshold self; threshold_mode := threshold_mode self;
     min_ct := min_ct self; eps := eps self; verbose := verbose self;
     best := best self; num_bad_epochs := v;
     last_epoch := last_epoch self |}.

Definition set_last_epoch (self : ScheduledPseudoLabeler) (v : Z)
  : ScheduledPseudoLabeler :=
  {| activation := activation self;
     confidence_threshold := confidence_threshold self;
     threshold_from_both_sides := threshold_from_both_sides self;
     init_kwargs := init_kwargs self;
     mode := mode self; factor := factor self; patience := patience self;
     threshold := threshold self; threshold_mode := threshold_mode self;
     min_ct := min_ct self; eps := eps self; verbose := verbose self;
     best := best self; num_bad_epochs := num_bad_epochs self;
     last_epoch := v |}.

(** [x in {a, b}] for strings. *)
Definition in2 (x a b : string) : bool := String.eqb x a || String.eqb x b.

Definition __init__ (activation : option (tensor pyfloat -> tensor pyfloat))
    (confidence_threshold : option pyfloat) (threshold_from_both_sides : bool)
    (mode : string) (factor : pyfloat) (patience : Z) (threshold : pyfloat)
    (threshold_mode : string) (min_ct eps : pyfloat) (verbose : bool)
  : result ScheduledPseudoLabeler :=
  if negb (in2 mode "min" "max") then
    Raise (ValueError ("Invalid mode: " ++ mode ++
                       ". Mode should be 'min' or 'max'."))
  else if fgeb factor f1 then
    Raise (ValueError "Factor should be < 1.0.")
  else if negb (in2 threshold_mode "rel" "abs") then
    Raise (ValueError ("Invalid threshold mode: " ++ mode ++
                       ". Threshold mode should be 'rel' or 'abs'."))
  else
    Ok {| activation := activation;
          confidence_threshold := confidence_threshold;
          threshold_from_both_sides := threshold_from_both_sides;
          init_kwargs :=
            {| kw_confidence_threshold := confidence_threshold;
               kw_threshold_from_both_sides := threshold_from_both_sides |};
          mode := mode; factor := factor; patience := patience;
          threshold := threshold; threshold_mode := threshold_mode;
          min_ct := min_ct; eps := eps; verbose := verbose;
          best := if String.eqb mode "min" then PInf else NInf;
          num_bad_epochs := 0;
          last_epoch := 0 |}.

(** The default values of the scheduler arguments. *)
Definition default_factor : pyfloat := Fin (1 # 20).
Definition default_patience : Z := 10.
Definition default_threshold : pyfloat := Fin (1 # 10000).
Definition default_min_ct : pyfloat := Fin (1 # 2).
Definition default_eps : pyfloat := Fin (1 # 100000000).

Definition _compute_label_mask_both_sides (self : ScheduledPseudoLabeler)
    (pseudo_labels : tensor pyfloat) : result anytensor :=
  match confidence_threshold self with
  | None => Raise TypeError
  | Some ct =>
      let upper_threshold := ct in
      let lower_threshold := fsub f1 ct in
      Ok (TFloat (tmap bool_to_float
                    (tmap (passes_both_sides upper_threshold lower_threshold)
                          pseudo_labels)))
  end.

Definition _compute_label_mask_one_side (self : ScheduledPseudoLabeler)
    (pseudo_labels : tensor pyfloat) : result anytensor :=
  match confidence_threshold self with
  | None => Raise TypeError
  | Some ct => Ok (TBool (tmap (fun x => fgeb x ct) pseudo_labels))
  end.

Definition __call__ (self : ScheduledPseudoLabeler)
    (teacher : tensor pyfloat -> tensor pyfloat) (input_ : tensor pyfloat)
  : result (tensor pyfloat * option anytensor) :=
  let pseudo_labels := teacher input_ in
  let pseudo_labels :=
    match activation self with
    | Some act => act pseudo_labels
    | None => pseudo_labels
    end in
  match confidence_threshold self with
  | None => Ok (pseudo_labels, None)
  | Some _ =>
      match (if threshold_from_both_sides self
             then _compute_label_mask_both_sides self pseudo_labels
             else _compute_label_mask_one_side self pseudo_labels) with
      | Ok label_mask => Ok (pseudo_labels, Some label_mask)
      | Raise e => Raise e
      end
  end.

Definition _is_better (self : ScheduledPseudoLabeler) (a best : pyfloat)
  : bool :=
  if String.eqb (mode self) "min" && String.eqb (threshold_mode self) "rel"
  then
    let rel_epsilon := fsub f1 (threshold self) in
    fltb a (fmul best rel_epsilon)
  else if String.eqb (mode self) "min"
          && String.eqb (threshold_mode self) "abs"
  then fltb a (fsub best (threshold self))
  else if String.eqb (mode self) "max"
          && String.eqb (threshold_mode self) "rel"
  then
    let rel_epsilon := fadd (threshold self) f1 in
    fgtb a (fmul best rel_epsilon)
  else fgtb a (fadd best (threshold self)).

(** The candidate threshold of [_reduce_ct], before the [eps] test. *)
Definition new_ct (self : ScheduledPseudoLabeler) (ct : pyfloat) : pyfloat :=
  if String.eqb (threshold_mode self) "rel"
  then pymax (fmul ct (factor self)) (min_ct self)
  else pymax (fsub ct (factor self)) (min_ct self).

(** Without a confidence threshold the arithmetic on [None] raises a
    [TypeError] before anything is assigned. *)
Definition _reduce_ct (self : ScheduledPseudoLabeler) (epoch : Z)
  : result unit * ScheduledPseudoLabeler :=
  match confidence_threshold self with
  | None => (Raise TypeError, self)
  | Some old_ct =>
      let new_ct := new_ct self old_ct in
      if fgtb (fsub old_ct new_ct) (eps self)
      then (Ok tt, set_confidence_threshold self (Some new_ct))
      else (Ok tt, self)
  end.

Definition step (self : ScheduledPseudoLabeler) (metric : pyfloat)
    (epoch : option Z) : result unit * ScheduledPseudoLabeler :=
  let current := metric in
  let epoch := match epoch with
               | None => last_epoch self + 1
               | Some e => e
               end in
  let self := set_last_epoch self epoch in
  let self :=
    if _is_better self current (best self)
    then set_num_bad_epochs (set_best self current) 0
    else set_num_bad_epochs self (num_bad_epochs self + 1) in
  if num_bad_epochs self >? patience self
  then
    match _reduce_ct self epoch with
    | (Ok _, self) => (Ok tt, set_num_bad_epochs self 0)
    | (Raise e, self) => (Raise e, self)
    end
  else (Ok tt, self).

(** A run of [step] calls, stopping at the first one that raises. *)
Fixpoint steps (self : ScheduledPseudoLabeler)
    (calls : list (pyfloat * option Z))
  : result unit * ScheduledPseudoLabeler :=
  match calls with
  | [] => (Ok tt, self)
  | (metric, epoch) :: rest =>
      match step self metric epoch with
      | (Ok _, self) => steps self rest
      | (Raise e, self) => (Raise e, self)
      end
  end.


(** *** Vocabulary of the properties *)

(** The fields [step] and [_reduce_ct] never assign. *)
Definition same_config (a b : ScheduledPseudoLabeler) : Prop :=
  mode b = mode a /\ factor b = factor a /\ patience b = patience a /\
  threshold b = threshold a /\ threshold_mode b = threshold_mode a /\
  min_ct b = min_ct a /\ eps b = eps a.

(** The threshold is set and not below the floor. *)
Definition above_floor (self : ScheduledPseudoLabeler) : Prop :=
  exists ct, confidence_threshold self = Some ct /\
             fgeb ct (min_ct self) = true.

(** [step] in two halves: the bookkeeping of the metric, then the test
    of the counter against the patience. *)
Definition epoch_of (self : ScheduledPseudoLabeler) (epoch : option Z) : Z :=
  match epoch with None => last_epoch self + 1 | Some e => e end.

Definition after_metric (self : ScheduledPseudoLabeler) (metric : pyfloat)
    (e : Z) : ScheduledPseudoLabeler :=
  if _is_better self metric (best self)
  then set_num_bad_epochs (set_best (set_last_epoch self e) metric) 0
  else set_num_bad_epochs (set_last_epoch self e) (num_bad_epochs self + 1).

Definition after_patience (s : ScheduledPseudoLabeler) (e : Z)
  : result unit * ScheduledPseudoLabeler :=
  if num_bad_epochs s >? patience s
  then
    match _reduce_ct s e with
    | (Ok _, s') => (Ok tt, set_num_bad_epochs s' 0)
    | (Raise ex, s') => (Raise ex, s')
    end
  else (Ok tt, s).

(** A labeler with the default scheduler arguments and threshold 0.9. *)
Definition demo : ScheduledPseudoLabeler :=
  {| activation := None;
     confidence_threshold := Some (Fin (9 # 10));
     threshold_from_both_sides := true;
     init_kwargs := {| kw_confidence_threshold := Some (Fin (9 # 10));
                       kw_threshold_from_both_sides := true |};
     mode := "min"; factor := default_factor; patience := default_patience;
     threshold := default_threshold; threshold_mode := "abs";
     min_ct := default_min_ct; eps := default_eps; verbose := true;
     best := PInf; num_bad_epochs := 0; last_epoch := 0 |}.

(** Twelve epochs with the same metric: one improvement, then a plateau
    that outlasts the patience of ten. *)
Definition plateau : list (pyfloat * option Z) :=
  repeat (Fin 1, None) 12.

(** A labeler built with a negative patience. *)
Definition hasty : ScheduledPseudoLabeler :=
  {| activation := None;
     confidence_threshold := Some (Fin (9 # 10));
     threshold_from_both_sides := true;
     init_kwargs := {| kw_confidence_threshold := Some (Fin (9 # 10));
                       kw_threshold_from_both_sides := true |};
     mode := "min"; factor := default_factor; patience := -1;
     threshold := default_threshold; threshold_mode := "abs";
     min_ct := default_min_ct; eps := default_eps; verbose := true;
     best := PInf; num_bad_epochs := 0; last_epoch := 0 |}.

(** The counter lies between zero and the patience. *)
Definition counter_within_patience (self : ScheduledPseudoLabeler) : Prop :=
  0 <= num_bad_epochs self <= patience self.

End Scheduled.

(** ** The labelers on machine floats *)

(** The same classes once more, with the arithmetic of the machine: a
    Python [float] is an IEEE 754 binary64 number and every operation on it
    rounds to nearest, ties to even; a floating tensor has a dtype, and
    comparing it with a Python float first rounds that float to the dtype.
    The numbers are those of [SpecFloat]. *)

Module IEEE.

Local Open Scope Z_scope.

Definition float : Type := SpecFloat.spec_float.

Definition nan : float := SpecFloat.S754_nan.
Definition inf : float := SpecFloat.S754_infinity false.
Definition neg_inf : float := SpecFloat.S754_infinity true.

(** Operations of Python floats. *)
Definition add64 : float -> float -> float := SpecFloat.SFadd 53 1024.
Definition sub64 : float -> float -> float := SpecFloat.SFsub 53 1024.
Definition mul64 : float -> float -> float := SpecFloat.SFmul 53 1024.
Definition div64 : float -> float -> float := SpecFloat.SFdiv 53 1024.

(** Comparisons of two numbers of one format; false on NaN. *)
Definition ltb (x y : float) : bool := SpecFloat.SFltb x y.
Definition leb (x y : float) : bool := SpecFloat.SFleb x y.
Definition gtb (x y : float) : bool := SpecFloat.SFltb y x.
Definition geb (x y : float) : bool := SpecFloat.SFleb y x.
Definition eqb (x y : float) : bool := SpecFloat.SFeqb x y.

(** Python's builtin [max(a, b)]. *)
Definition pymax (a b : float) : float := if gtb b a then b else a.

(** The float of an integer, and the float a decimal literal [n/d]
    denotes (for [n] and [d] below 2^53). *)
Definition of_int (z : Z) : float := SpecFloat.binary_normalize 53 1024 z 0 false.
Definition lit (n d : Z) : float := div64 (of_int n) (of_int d).

Definition one : float := of_int 1.

(** The dtypes of the tensors considered. *)
Inductive dtype : Type :=
| Float32
| Float64.

Definition prec (d : dtype) : Z :=
  match d with Float32 => 24 | Float64 => 53 end.
Definition emax (d : dtype) : Z :=
  match d with Float32 => 128 | Float64 => 1024 end.

(** Conversion of a Python float to a dtype. *)
Definition cast (d : dtype) (x : float) : float :=
  match x with
  | SpecFloat.S754_finite s m e =>
      SpecFloat.binary_round (prec d) (emax d) s m e
  | _ => x
  end.

(** A floating tensor. *)
Record ftensor : Type := {
  dtype_of : dtype;
  values : tensor float
}.

(** [t >= s] and [t <= s] for a tensor and a Python float: the float is
    converted to the dtype of the tensor and compared elementwise. *)
Definition tensor_ge (t : ftensor) (s : float) : tensor bool :=
  tmap (fun x => geb x (cast (dtype_of t) s)) (values t).
Definition tensor_le (t : ftensor) (s : float) : tensor bool :=
  tmap (fun x => leb x (cast (dtype_of t) s)) (values t).

(** [a + b] for boolean tensors of one shape: the elementwise
    disjunction. *)
Definition bool_add (a b : tensor bool) : option (tensor bool) :=
  tzip orb a b.

(** [b.to(dtype=torch.float32)] *)
Definition to_float32 (b : tensor bool) : ftensor :=
  {| dtype_of := Float32;
     values := tmap (fun x : bool =>
                       if x then cast Float32 one
                       else SpecFloat.S754_zero false) b |}.

(** A mask is a boolean tensor or a floating one. *)
Inductive mask : Type :=
| BoolMask (t : tensor bool)
| FloatMask (t : ftensor).

(** Whether a mask keeps the element at a multi-index. *)
Definition keeps (m : mask) (p : list nat) : option bool :=
  match m with
  | BoolMask t => tget t p
  | FloatMask t =>
      option_map (fun x => eqb x (cast (dtype_of t) one)) (tget (values t) p)
  end.

Record kwargs : Type := {
  kw_confidence_threshold : option float;
  kw_threshold_from_both_sides : bool
}.

(** The threshold test in words, as the machine evaluates it. *)
Definition kept (both_sides : bool) (d : dtype) (ct x : float) : bool :=
  if both_sides
  then geb x (cast d ct) || leb x (cast d (sub64 one ct))
  else geb x (cast d ct).

(** The exact value of a tensor element as a binary64 number (both dtypes
    embed into binary64 without rounding). *)
Definition exact64 (x : float) : float := cast Float64 x.

Module Default.

Record DefaultPseudoLabeler : Type := {
  activation : option (ftensor -> ftensor);
  confidence_threshold : option float;
  threshold_from_both_sides : bool;
  init_kwargs : kwargs
}.

Definition __init__ (activation : option (ftensor -> ftensor))
    (confidence_threshold : option float) (threshold_from_both_sides : bool)
  : DefaultPseudoLabeler :=
  {| activation := activation;
     confidence_threshold := confidence_threshold;
     threshold_from_both_sides := threshold_from_both_sides;
     init_kwargs :=
       {| kw_confidence_threshold := confidence_threshold;
          kw_threshold_from_both_sides := threshold_from_both_sides |} |}.

Definition _compute_label_mask_both_sides (self : DefaultPseudoLabeler)
    (pseudo_labels : ftensor) : result mask :=
  match confidence_threshold self with
  | None => Raise TypeError
  | Some ct =>
      let upper_threshold := ct in
      let lower_threshold := sub64 one ct in
      match bool_add (tensor_ge pseudo_labels upper_threshold)
                     (tensor_le pseudo_labels lower_threshold) with
      | Some b => Ok (FloatMask (to_float32 b))
      | None => Raise RuntimeError
      end
  end.

Definition _compute_label_mask_one_side (self : DefaultPseudoLabeler)
    (pseudo_labels : ftensor) : result mask :=
  match confidence_threshold self with
  | None => Raise TypeError
  | Some ct => Ok (BoolMask (tensor_ge pseudo_labels ct))
  end.

Definition __call__ (self : DefaultPseudoLabeler)
    (teacher : ftensor -> ftensor) (input_ : ftensor)
  : result (ftensor * option mask) :=
  let pseudo_labels := teacher input_ in
  let pseudo_labels :=
    match activation self with
    | Some act => act pseudo_labels
    | None => pseudo_labels
    end in
  match confidence_threshold self with
  | None => Ok (pseudo_labels, None)
  | Some _ =>
      match (if threshold_from_both_sides self
             then _compute_label_mask_both_sides self pseudo_labels
             else _compute_label_mask_one_side self pseudo_labels) with
      | Ok label_mask => Ok (pseudo_labels, Some label_mask)
      | Raise e => Raise e
      end
  end.

End Default.

Module Scheduled.

Local Open Scope string_scope.

Record ScheduledPseudoLabeler : Type := {
  activation : option (ftensor -> ftensor);
  confidence_threshold : option float;
  threshold_from_both_sides : bool;
  init_kwargs : kwargs;
  mode : string;
  factor : float;
  patience : Z;
  threshold : float;
  threshold_mode : string;
  min_ct : float;
  eps : float;
  verbose : bool;
  best : float;
  num_bad_epochs : Z;
  last_epoch : Z
}.

(** Attribute assignments. *)
Definition set_confidence_threshold (self : ScheduledPseudoLabeler)
    (v : option float) : ScheduledPseudoLabeler :=
  {| activation := activation self;
     confidence_threshold := v;
     threshold_from_both_sides := threshold_from_both_sides self;
     init_kwargs := init_kwargs self;
     mode := mode self; factor := factor self; patience := patience self;
     threshold := threshold self; threshold_mode := threshold_mode self;
     min_ct := min_ct self; eps := eps self; verbose := verbose self;
     best := best self; num_bad_epochs := num_bad_epochs self;
     last_epoch := last_epoch self |}.

Definition set_best (self : ScheduledPseudoLabeler) (v : float)
  : ScheduledPseudoLabeler :=
  {| activation := activation self;
     confidence_threshold := confidence_threshold self;
     threshold_from_both_sides := threshold_from_both_sides self;
     init_kwargs := init_kwargs self;
     mode := mode self; factor := factor self; patience := patience self;
     threshold := threshold self; threshold_mode := threshold_mode self;
     min_ct := min_ct self; eps := eps self; verbose := verbose self;
     best := v; num_bad_epochs := num_bad_epochs self;
     last_epoch := last_epoch self |}.

Definition set_num_bad_epochs (self : ScheduledPseudoLabeler) (v : Z)
  : ScheduledPseudoLabeler :=
  {| activation := activation self;
     confidence_threshold := confidence_threshold self;
     threshold_from_both_sides := threshold_from_both_sides self;
     init_kwargs := init_kwargs self;
     mode := mode self; factor := factor self; patience := patience self;
     threshold := threshold self; threshold_mode := threshold_mode self;
     min_ct := min_ct self; eps := eps self; verbose := verbose self;
     best := best self; num_bad_epochs := v;
     last_epoch := last_epoch self |}.

Definition set_last_epoch (self : ScheduledPseudoLabeler) (v : Z)
  : ScheduledPseudoLabeler :=
  {| activation := activation self;
     confidence_threshold := confidence_threshold self;
     threshold_from_both_sides := threshold_from_both_sides self;
     init_kwargs := init_kwargs self;
     mode := mode self; factor := factor self; patience := patience self;
     threshold := threshold self; threshold_mode := threshold_mode self;
     min_ct := min_ct self; eps := eps self; verbose := verbose self;
     best := best self; num_bad_epochs := num_bad_epochs self;
     last_epoch := v |}.

Definition in2 (x a b : string) : bool := String.eqb x a || String.eqb x b.

Definition __init__ (activation : option (ftensor -> ftensor))
    (confidence_threshold : option float) (threshold_from_both_sides : bool)
    (mode : string) (factor : float) (patience : Z) (threshold : float)
    (threshold_mode : string) (min_ct eps : float) (verbose : bool)
  : result ScheduledPseudoLabeler :=
  if negb (in2 mode "min" "max") then
    Raise (ValueError ("Invalid mode: " ++ mode ++
                       ". Mode should be 'min' or 'max'."))
  else if geb factor one then
    Raise (ValueError "Factor should be < 1.0.")
  else if negb (in2 threshold_mode "rel" "abs") then
    Raise (ValueError ("Invalid threshold mode: " ++ mode ++
                       ". Threshold mode should be 'rel' or 'abs'."))
  else
    Ok {| activation := activation;
          confidence_threshold := confidence_threshold;
          threshold_from_both_sides := threshold_from_both_sides;
          init_kwargs :=
            {| kw_confidence_threshold := confidence_threshold;
               kw_threshold_from_both_sides := threshold_from_both_sides |};
          mode := mode; factor := factor; patience := patience;
          threshold := threshold; threshold_mode := threshold_mode;
          min_ct := min_ct; eps := eps; verbose := verbose;
          best := if String.eqb mode "min" then inf else neg_inf;
          num_bad_epochs := 0;
          last_epoch := 0 |}.

(** The default values of the scheduler arguments: 0.05, 10, 1e-4, 0.5
    and 1e-8. *)
Definition default_factor : float := lit 5 100.
Definition default_patience : Z := 10.
Definition default_threshold : float := lit 1 10000.
Definition default_min_ct : float := lit 5 10.
Definition default_eps : float := lit 1 100000000.

Definition _compute_label_mask_both_sides (self : ScheduledPseudoLabeler)
    (pseudo_labels : ftensor) : result mask :=
  match confidence_threshold self with
  | None => Raise TypeError
  | Some ct =>
      let upper_threshold := ct in
      let lower_threshold := sub64 one ct in
      match bool_add (tensor_ge pseudo_labels upper_threshold)
                     (tensor_le pseudo_labels lower_threshold) with
      | Some b => Ok (FloatMask (to_float32 b))
      | None => Raise RuntimeError
      end
  end.

Definition _compute_label_mask_one_side (self : ScheduledPseudoLabeler)
    (pseudo_labels : ftensor) : result mask :=
  match confidence_threshold self with
  | None => Raise TypeError
  | Some ct => Ok (BoolMask (tensor_ge pseudo_labels ct))
  end.

Definition __call__ (self : ScheduledPseudoLabeler)
    (teacher : ftensor -> ftensor) (input_ : ftensor)
  : result (ftensor * option mask) :=
  let pseudo_labels := teacher input_ in
  let pseudo_labels :=
    match activation self with
    | Some act => act pseudo_labels
    | None => pseudo_labels
    end in
  match confidence_threshold self with
  | None => Ok (pseudo_labels, None)
  | Some _ =>
      match (if threshold_from_both_sides self
             then _compute_label_mask_both_sides self pseudo_labels
             else _compute_label_mask_one_side self pseudo_labels) with
      | Ok label_mask => Ok (pseudo_labels, Some label_mask)
      | Raise e => Raise e
      end
  end.

Definition _is_better (self : ScheduledPseudoLabeler) (a best : float)
  : bool :=
  if String.eqb (mode self) "min" && String.eqb (threshold_mode self) "rel"
  then
    let rel_epsilon := sub64 one (threshold self) in
    ltb a (mul64 best rel_epsilon)
  else if String.eqb (mode self) "min"
          && String.eqb (threshold_mode self) "abs"
  then ltb a (sub64 best (threshold self))
  else if String.eqb (mode self) "max"
          && String.eqb (threshold_mode self) "rel"
  then
    let rel_epsilon := add64 (threshold self) one in
    gtb a (mul64 best rel_epsilon)
  else gtb a (add64 best (threshold self)).

Definition _reduce_ct (self : ScheduledPseudoLabeler) (epoch : Z)
  : result unit * ScheduledPseudoLabeler :=
  match confidence_threshold self with
  | None => (Raise TypeError, self)
  | Some old_ct =>
      let new_ct :=
        if String.eqb (threshold_mode self) "rel"
        then pymax (mul64 old_ct (factor self)) (min_ct self)
        else pymax (sub64 old_ct (factor self)) (min_ct self) in
      if gtb (sub64 old_ct new_ct) (eps self)
      then (Ok tt, set_confidence_threshold self (Some new_ct))
      else (Ok tt, self)
  end.

Definition step (self : ScheduledPseudoLabeler) (metric : float)
    (epoch : option Z) : result unit * ScheduledPseudoLabeler :=
  let current := metric in
  let epoch := match epoch with
               | None => last_epoch self + 1
               | Some e => e
               end in
  let self := set_last_epoch self epoch in
  let self :=
    if _is_better self current (best self)
    then set_num_bad_epochs (set_best self current) 0
    else set_num_bad_epochs self (num_bad_epochs self + 1) in
  if num_bad_epochs self >? patience self
  then
    match _reduce_ct self epoch with
    | (Ok _, self) => (Ok tt, set_num_bad_epochs self 0)
    | (Raise e, self) => (Raise e, self)
    end
  else (Ok tt, self).

(** *** Vocabulary of the properties *)

(** The candidate of a plateau: the decay, not below the floor. *)
Definition decayed (self : ScheduledPseudoLabeler) (ct : float) : float :=
  pymax (if String.eqb (threshold_mode self) "rel"
         then mul64 ct (factor self)
         else sub64 ct (factor self))
        (min_ct self).

(** Reading of the plateau rule without the [eps] test: once the counter
    exceeds the patience the threshold is the decayed one and the counter
    is zero. *)
Definition plateau_always_decays (self : ScheduledPseudoLabeler)
    (metric : float) (epoch : option Z) : Prop :=
  forall ct,
    confidence_threshold self = Some ct ->
    _is_better self metric (best self) = false ->
    num_bad_epochs self + 1 > patience self ->
    confidence_threshold (snd (step self metric epoch))
    = Some (decayed self ct) /\
    num_bad_epochs (snd (step self metric epoch)) = 0.

(** The labeler [ScheduledPseudoLabeler(confidence_threshold=ct,
    patience=patience, eps=eps)], all else by default, after a first call
    of [step] with metric 1.0. *)
Definition started (ct : float) (patience : Z) (eps : float)
  : ScheduledPseudoLabeler :=
  {| activation := None;
     confidence_threshold := Some ct;
     threshold_from_both_sides := true;
     init_kwargs := {| kw_confidence_threshold := Some ct;
                       kw_threshold_from_both_sides := true |};
     mode := "min"; factor := default_factor; patience := patience;
     threshold := default_threshold; threshold_mode := "abs";
     min_ct := default_min_ct; eps := eps; verbose := true;
     best := one; num_bad_epochs := 0; last_epoch := 1 |}.

(** A threshold 2^-30 above the floor 0.5. *)
Definition c_tight : float := add64 (lit 5 10) (lit 1 1073741824).

End Scheduled.

(** *** Vocabulary of the properties *)

(** Reading of the masking policy word by word: the mask keeps a
    prediction exactly when it is above the threshold (or, from both
    sides, also when it is below one minus the threshold), the numbers
    compared as they are. *)
Definition above (both_sides : bool) (ct x : float) : bool :=
  if both_sides
  then gtb (exact64 x) ct || ltb (exact64 x) (sub64 one ct)
  else gtb (exact64 x) ct.

Definition keeps_exactly_above (both_sides : bool) (ct : float)
    (labels : ftensor) (m : mask) : Prop :=
  forall p x, tget (values labels) p = Some x ->
              keeps m p = Some (above both_sides ct x).

(** A float32 tensor of one axis, from decimal literals. *)
Definition vec32 (l : list float) : ftensor :=
  {| dtype_of := Float32; values := vec (map (cast Float32) l) |}.

(** A teacher that predicts its input. *)
Definition echo (x : ftensor) : ftensor := x.

End IEEE.

(** ** Experiment drivers *)

(** The two scripts [unet_fixmatch.py] and [punet_adamatch.py].  What they
    take from the module [common] (which is not part of the sources read
    here), from the trainer and from Python's formatting of a float is a
    parameter of the definitions; a call into them takes the state of the
    world and returns it changed, with an outcome. *)

Module Drivers.

Local Open Scope string_scope.

Inductive outcome (E A : Type) : Type :=
| Returns (a : A)
| Raises (e : E).
Arguments Returns {E A} a.
Arguments Raises {E A} e.

(** The fields of the parsed command line the drivers read. *)
Record Args : Type := {
  phase : string;
  cell_types : list string;
  target_ct : option (list string);
  confidence_threshold : option pyfloat;
  consensus_masking : bool;
  distribution_alignment : bool;
  output : option string;
  save_root : option string
}.

Inductive AssertionError : Type :=
| Assertion (msg : option string).

(** The three phases [main] can start. *)
Inductive Phase : Type :=
| CheckLoader
| RunTraining
| RunEvaluation.

(** The dispatch of [main], the same in both scripts:
    [if args.phase in ("c", "check") ... else raise ValueError]. *)
Definition main_phase (args : Args) : result Phase :=
  if String.eqb (phase args) "c" || String.eqb (phase args) "check"
  then Ok CheckLoader
  else if String.eqb (phase args) "t" || String.eqb (phase args) "train"
  then Ok RunTraining
  else if String.eqb (phase args) "e" || String.eqb (phase args) "evaluate"
  then Ok RunEvaluation
  else Raise (ValueError ("Got phase=" ++ phase args ++
                          ", expect one of check, train, evaluate.")).

Section Loops.
Variable World E : Type.

(** [_train_source_target(args, source, target)], as far as the loops
    around it are concerned. *)
Variable train_source_target :
  string -> string -> World -> outcome E unit * World.

(** The loop of [_train_source]: every target but the source itself, in
    order, until a call raises.  Returned with the outcome: the calls of
    [_train_source_target] made, as (source, target) pairs. *)
Fixpoint train_targets (cell_type : string) (targets : list string)
    (w : World) : outcome E unit * list (string * string) * World :=
  match targets with
  | [] => (Returns tt, [], w)
  | target_cell_type :: rest =>
      if String.eqb target_cell_type cell_type
      then train_targets cell_type rest w
      else
        match train_source_target cell_type target_cell_type w with
        | (Raises e, w') => (Raises e, [(cell_type, target_cell_type)], w')
        | (Returns _, w') =>
            match train_targets cell_type rest w' with
            | (r, calls, w'') =>
                (r, (cell_type, target_cell_type) :: calls, w'')
            end
        end
  end.

(** The loop of [run_training] over [args.cell_types]. *)
Fixpoint train_sources
    (train_source : string -> World ->
                    outcome E unit * list (string * string) * World)
    (sources : list string) (w : World)
  : outcome E unit * list (string * string) * World :=
  match sources with
  | [] => (Returns tt, [], w)
  | cell_type :: rest =>
      match train_source cell_type w with
      | (Raises e, calls, w') => (Raises e, calls, w')
      | (Returns _, calls, w') =>
          match train_sources train_source rest w' with
          | (r, calls', w'') => (r, (calls ++ calls')%list, w'')
          end
      end
  end.

End Loops.

(** The name under which [_train_source_target] registers the trainer:
    everything before the source and target, then the two. *)
Definition with_pair (name source_cell_type target_cell_type : string)
  : string :=
  name ++ "/" ++ source_cell_type ++ "/" ++ target_cell_type.

(** Whether a string contains a given character. *)
Fixpoint contains (c : Ascii.ascii) (s : string) : bool :=
  match s with
  | EmptyString => false
  | String d rest => Ascii.eqb c d || contains c rest
  end.

(** *** Vocabulary of the properties *)

(** Three cell types, a world without state in which every training
    returns, and a command line asking for two sources. *)
Definition three_types : list string := ["A172"; "BT474"; "BV2"].

Definition always_trains (source target : string) (w : unit)
  : outcome unit unit * unit :=
  (Returns tt, w).

Definition train_args : Args :=
  {| phase := "train";
     cell_types := ["A172"; "BV2"];
     target_ct := None;
     confidence_threshold := Some (Fin (9 # 10));
     consensus_masking := true;
     distribution_alignment := false;
     output := None;
     save_root := None |}.

(** A formatting of the threshold, for examples only. *)
Definition show_thresh (t : option pyfloat) : string :=
  match t with None => "None" | Some _ => "0.9" end.

End Drivers.

Module UnetFixmatch.
Import Drivers.

Local Open Scope string_scope.

Section Script.
Variable World E : Type.
Variable CELL_TYPES : list string.
Variable train_source_target :
  string -> string -> World -> outcome E unit * World.

(** Python's [f"{thresh}"] for [None] or a float. *)
Variable format_thresh : option pyfloat -> string.

Definition _train_source (args : Args) (cell_type : string) (w : World)
  : outcome E unit * list (string * string) * World :=
  train_targets train_source_target cell_type CELL_TYPES w.

Definition run_training (args : Args) (w : World)
  : outcome E unit * list (string * string) * World :=
  train_sources (_train_source args) (cell_types args) w.

(** The checkpoint [_train_source_target] loads the source model from. *)
Definition src_checkpoint (args : Args) (source_cell_type : string)
  : string :=
  match save_root args with
  | None => "./checkpoints/unet_source/" ++ source_cell_type
  | Some root => root ++ "checkpoints/unet_source/" ++ source_cell_type
  end.

(** The name [_train_source_target] gives the trainer, or the assertion
    that fails on the way. *)
Definition trainer_name (args : Args)
    (source_cell_type target_cell_type : string)
  : outcome AssertionError string :=
  let thresh := confidence_threshold args in
  let name := "unet_fixmatch/thresh-" ++ format_thresh thresh in
  if distribution_alignment args
  then
    match output args with
    | None => Raises (Assertion None)
    | Some _ =>
        let name := name ++ "-distro-align" in
        Returns (with_pair name source_cell_type target_cell_type)
    end
  else Returns (with_pair name source_cell_type target_cell_type).

End Script.
End UnetFixmatch.

Module PunetAdamatch.
Import Drivers.

Local Open Scope string_scope.

Section Script.
Variable World E : Type.
Variable CELL_TYPES : list string.
Variable train_source_target :
  string -> string -> World -> outcome E unit * World.
Variable format_thresh : option pyfloat -> string.

Definition _train_source (args : Args) (cell_type : string) (w : World)
  : outcome E unit * list (string * string) * World :=
  let target_cell_list :=
    match target_ct args with
    | None => CELL_TYPES
    | Some l => l
    end in
  train_targets train_source_target cell_type target_cell_list w.

Definition run_training (args : Args) (w : World)
  : outcome E unit * list (string * string) * World :=
  train_sources (_train_source args) (cell_types args) w.

(** The pseudo-labeler [_train_source_target] constructs (its activation
    is a sigmoid, passed in here), or the assertion that fails before. *)
Definition pseudo_labeler (args : Args)
    (sigmoid : tensor pyfloat -> tensor pyfloat)
  : outcome AssertionError Probabilistic.ProbabilisticPseudoLabeler :=
  let thresh := confidence_threshold args in
  match thresh, consensus_masking args with
  | None, true =>
      Raises (Assertion
                (Some "Provide a confidence threshold to use consensus masking"))
  | _, _ =>
      Returns (Probabilistic.__init__ (Some sigmoid) thresh true 16
                 (consensus_masking args))
  end.

(** The name [_train_source_target] gives the trainer, or the assertion
    that fails on the way. *)
Definition trainer_name (args : Args)
    (source_cell_type target_cell_type : string)
  : outcome AssertionError string :=
  let thresh := confidence_threshold args in
  match thresh, consensus_masking args with
  | None, true =>
      Raises (Assertion
                (Some "Provide a confidence threshold to use consensus masking"))
  | _, _ =>
      let name :=
        if consensus_masking args
        then "punet_adamatch/thresh-" ++ format_thresh thresh ++ "-masking"
        else "punet_adamatch/thresh-" ++ format_thresh thresh in
      if distribution_alignment args
      then
        match output args with
        | None => Raises (Assertion None)
        | Some _ =>
            let name := name ++ "-distro-align" in
            Returns (with_pair name source_cell_type target_cell_type)
        end
      else Returns (with_pair name source_cell_type target_cell_type)
  end.

End Script.
End PunetAdamatch.

(** * Properties *)

(** ** The order on floats *)

Lemma fcompare_antisym (x y : pyfloat) :
  fcompare y x = option_map CompOpp (fcompare x y).
Proof.
  destruct x as [a| | |], y as [b| | |]; simpl; try reflexivity.
  now rewrite Qcompare_antisym.
Qed.

Lemma fcompare_nan (x y : pyfloat) :
  fcompare x y = None <-> is_nan x = true \/ is_nan y = true.
Proof.
  destruct x, y; simpl; split; intros H; try discriminate; auto;
    destruct H; discriminate.
Qed.

Lemma fcompare_refl (x : pyfloat) :
  is_nan x = false -> fcompare x x = Some Eq.
Proof.
  destruct x as [a| | |]; simpl; intros H; try reflexivity; try discriminate.
  f_equal. apply Qeq_alt. reflexivity.
Qed.

Lemma fgeb_not_nan (x y : pyfloat) :
  fgeb x y = true -> is_nan x = false /\ is_nan y = false.
Proof.
  unfold fgeb. destruct x, y; simpl; intros H; try discriminate; auto.
Qed.

Lemma fleb_not_nan (x y : pyfloat) :
  fleb x y = true -> is_nan x = false /\ is_nan y = false.
Proof.
  unfold fleb. destruct x, y; simpl; intros H; try discriminate; auto.
Qed.

Lemma fgeb_refl (x : pyfloat) : is_nan x = false -> fgeb x x = true.
Proof. intros H. unfold fgeb. now rewrite fcompare_refl. Qed.

(** On numbers the order is total: what is not greater is at most. *)
Lemma fgtb_false_fgeb (x y : pyfloat) :
  is_nan x = false -> is_nan y = false ->
  fgtb y x = false -> fgeb x y = true.
Proof.
  intros Hx Hy. unfold fgtb, fgeb. rewrite (fcompare_antisym x y).
  destruct (fcompare x y) as [[| |]|] eqn:E; simpl; try easy.
  apply fcompare_nan in E. destruct E; congruence.
Qed.

Lemma fgtb_nan_l (y : pyfloat) : fgtb NaN y = false.
Proof. reflexivity. Qed.

Lemma fsub_nan_r (x : pyfloat) : fsub x NaN = NaN.
Proof. now destruct x. Qed.

(** [max(x, m)] is at least [m] as soon as it is a number. *)
Lemma pymax_ge (x m : pyfloat) :
  is_nan m = false -> is_nan (pymax x m) = false ->
  fgeb (pymax x m) m = true.
Proof.
  intros Hm. unfold pymax. destruct (fgtb m x) eqn:E; intros Hn.
  - now apply fgeb_refl.
  - now apply fgtb_false_fgeb.
Qed.

Lemma feqb_bool_to_float (b : bool) : feqb (bool_to_float b) f1 = b.
Proof. now destruct b. Qed.

(** ** Tensors *)

Lemma tget_tmap {A B : Type} (f : A -> B) (p : list nat) :
  forall t : tensor A, tget (tmap f t) p = option_map f (tget t p).
Proof.
  induction p as [|i p IH]; intros [a|ts]; simpl; try reflexivity.
  rewrite nth_error_map. destruct (nth_error ts i) as [t'|]; simpl; auto.
Qed.

(** ** The scheduler keeps the threshold above its floor *)

Module ScheduledFacts.
Import Scheduled.

Local Open Scope string_scope.
Local Open Scope Z_scope.

Lemma same_config_refl (a : ScheduledPseudoLabeler) : same_config a a.
Proof. repeat split. Qed.

Lemma same_config_trans (a b c : ScheduledPseudoLabeler) :
  same_config a b -> same_config b c -> same_config a c.
Proof.
  unfold same_config. intros H1 H2.
  repeat match goal with H : _ /\ _ |- _ => destruct H end.
  repeat split; congruence.
Qed.

Lemma reduce_ct_above_floor (self : ScheduledPseudoLabeler) (epoch : Z) :
  above_floor self ->
  fst (_reduce_ct self epoch) = Ok tt /\
  above_floor (snd (_reduce_ct self epoch)) /\
  same_config self (snd (_reduce_ct self epoch)) /\
  num_bad_epochs (snd (_reduce_ct self epoch)) = num_bad_epochs self /\
  best (snd (_reduce_ct self epoch)) = best self.
Proof.
  intros (ct & Hct & Hge). unfold _reduce_ct. rewrite Hct.
  destruct (fgtb (fsub ct (new_ct self ct)) (eps self)) eqn:E; simpl.
  - repeat split. exists (new_ct self ct). split; [reflexivity|]. simpl.
    destruct (fgeb_not_nan _ _ Hge) as [_ Hm].
    assert (Hn : is_nan (new_ct self ct) = false).
    { destruct (new_ct self ct); try reflexivity.
      rewrite fsub_nan_r in E. discriminate. }
    revert Hn. unfold new_ct.
    destruct (String.eqb (threshold_mode self) "rel"); apply pymax_ge; exact Hm.
  - repeat split. exists ct. auto.
Qed.

Lemma step_unfold (self : ScheduledPseudoLabeler) (metric : pyfloat)
    (epoch : option Z) :
  step self metric epoch =
  after_patience (after_metric self metric (epoch_of self epoch))
                 (epoch_of self epoch).
Proof. reflexivity. Qed.

Lemma after_metric_frame (self : ScheduledPseudoLabeler) (metric : pyfloat)
    (e : Z) :
  confidence_threshold (after_metric self metric e)
  = confidence_threshold self /\
  same_config self (after_metric self metric e).
Proof.
  unfold after_metric.
  destruct (_is_better self metric (best self)); repeat split.
Qed.

Lemma step_above_floor (self : ScheduledPseudoLabeler) (metric : pyfloat)
    (epoch : option Z) :
  above_floor self ->
  fst (step self metric epoch) = Ok tt /\
  above_floor (snd (step self metric epoch)) /\
  same_config self (snd (step self metric epoch)).
Proof.
  intros (ct & Hct & Hge). rewrite step_unfold.
  set (e := epoch_of self epoch).
  destruct (after_metric_frame self metric e) as (F1 & F2).
  set (s2 := after_metric self metric e) in *.
  assert (H2 : above_floor s2).
  { exists ct. rewrite F1. split; [exact Hct|].
    destruct F2 as (_&_&_&_&_&Hm&_). now rewrite Hm. }
  unfold after_patience.
  destruct (num_bad_epochs s2 >? patience s2).
  - destruct (reduce_ct_above_floor e H2) as (R1 & R2 & R3 & _).
    destruct (_reduce_ct s2 e) as [[u|ex] s3]; simpl in *; try discriminate.
    split; [reflexivity|]. split; [exact R2|].
    exact (same_config_trans F2 R3).
  - simpl. auto.
Qed.

Lemma steps_above_floor (calls : list (pyfloat * option Z)) :
  forall self, above_floor self ->
  fst (steps self calls) = Ok tt /\
  above_floor (snd (steps self calls)) /\
  same_config self (snd (steps self calls)).
Proof.
  induction calls as [|[metric epoch] rest IH]; intros self H; simpl.
  - repeat split. exact H.
  - destruct (step_above_floor metric epoch H) as (R1 & R2 & R3).
    destruct (step self metric epoch) as [[u|ex] s1]; simpl in *;
      try discriminate.
    destruct (IH s1 R2) as (Q1 & Q2 & Q3).
    split; [exact Q1|]. split; [exact Q2|].
    exact (same_config_trans R3 Q3).
Qed.

Lemma init_ok_fields act ct both md fac pat thr tmd mct ep vb self :
  __init__ act ct both md fac pat thr tmd mct ep vb = Ok self ->
  confidence_threshold self = ct /\ min_ct self = mct /\
  patience self = pat /\ num_bad_epochs self = 0 /\
  mode self = md /\ threshold_mode self = tmd /\ factor self = fac.
Proof.
  unfold __init__.
  destruct (negb (in2 md "min" "max")); [discriminate|].
  destruct (fgeb fac f1); [discriminate|].
  destruct (negb (in2 tmd "rel" "abs")); [discriminate|].
  intros H. injection H as <-. repeat split.
Qed.

(** [C2] For every configuration the constructor accepts, with an initial
    confidence threshold that is at least [min_ct], every sequence of
    [step] calls runs without raising and leaves the confidence threshold
    at least [min_ct]. *)
Theorem threshold_never_below_floor
    act ct0 both md fac pat thr tmd mct ep vb self
    (calls : list (pyfloat * option Z)) :
  __init__ act (Some ct0) both md fac pat thr tmd mct ep vb = Ok self ->
  fgeb ct0 mct = true ->
  fst (steps self calls) = Ok tt /\
  exists ct, confidence_threshold (snd (steps self calls)) = Some ct /\
             fgeb ct mct = true.
Proof.
  intros Hinit Hge.
  destruct (init_ok_fields _ _ _ _ _ _ _ _ _ _ _ Hinit) as (Hct & Hm & _).
  assert (H0 : above_floor self).
  { exists ct0. split; [exact Hct | now rewrite Hm]. }
  destruct (steps_above_floor calls H0) as (R1 & (ct & R2 & R3) & C).
  split; [exact R1|]. exists ct. split; [exact R2|].
  destruct C as (_&_&_&_&_&Hmin&_). now rewrite Hmin, Hm in R3.
Qed.

Lemma threshold_never_below_floor_witness :
  fst (steps demo plateau) = Ok tt /\
  exists ct, confidence_threshold (snd (steps demo plateau)) = Some ct /\
             fgeb ct default_min_ct = true.
Proof.
  apply (@threshold_never_below_floor None (Fin (9 # 10)) true "min"
           default_factor default_patience default_threshold "abs"
           default_min_ct default_eps true demo plateau); reflexivity.
Defined.

Example plateau_reduces_demo :
  confidence_threshold (snd (steps demo plateau)) = Some (Fin (17 # 20)).
Proof. reflexivity. Qed.

(** *** Improvement *)

Lemma reduce_ct_frame (self : ScheduledPseudoLabeler) (epoch : Z) :
  num_bad_epochs (snd (_reduce_ct self epoch)) = num_bad_epochs self /\
  best (snd (_reduce_ct self epoch)) = best self /\
  patience (snd (_reduce_ct self epoch)) = patience self.
Proof.
  unfold _reduce_ct. destruct (confidence_threshold self) as [ct|]; simpl.
  - destruct (fgtb (fsub ct (new_ct self ct)) (eps self)); simpl; auto.
  - auto.
Qed.

(** [C3] Whenever [step] is called with a metric that [_is_better] than the
    best value seen so far, the counter [num_bad_epochs] is zero afterwards
    and [best] is that metric. *)
Theorem step_improving_resets (self : ScheduledPseudoLabeler)
    (metric : pyfloat) (epoch : option Z) :
  _is_better self metric (best self) = true ->
  num_bad_epochs (snd (step self metric epoch)) = 0 /\
  best (snd (step self metric epoch)) = metric.
Proof.
  intros Hb. rewrite step_unfold. set (e := epoch_of self epoch).
  unfold after_metric. rewrite Hb.
  set (s2 := set_num_bad_epochs (set_best (set_last_epoch self e) metric) 0).
  unfold after_patience.
  destruct (num_bad_epochs s2 >? patience s2); [|now split].
  destruct (reduce_ct_frame s2 e) as (F1 & F2 & _).
  destruct (_reduce_ct s2 e) as [[u|ex] s3]; simpl in *; auto.
Qed.

Lemma step_improving_resets_witness :
  num_bad_epochs (snd (step demo (Fin 1) None)) = 0 /\
  best (snd (step demo (Fin 1) None)) = Fin 1.
Proof. apply step_improving_resets. reflexivity. Defined.

(** *** The counter of bad epochs *)

Lemma after_patience_counter (s : ScheduledPseudoLabeler) (e : Z) :
  0 <= patience s -> 0 <= num_bad_epochs s ->
  fst (after_patience s e) = Ok tt ->
  counter_within_patience (snd (after_patience s e)) /\
  patience (snd (after_patience s e)) = patience s.
Proof.
  intros Hp Hn. unfold after_patience, counter_within_patience.
  destruct (Z.gtb_spec (num_bad_epochs s) (patience s)) as [G|G].
  - destruct (reduce_ct_frame s e) as (_ & _ & F).
    destruct (_reduce_ct s e) as [[u|ex] s3]; simpl in *; intros H;
      [|discriminate].
    split; [lia|exact F].
  - simpl. intros _. split; [lia|reflexivity].
Qed.

Lemma step_counter (self : ScheduledPseudoLabeler) (metric : pyfloat)
    (epoch : option Z) :
  0 <= patience self -> 0 <= num_bad_epochs self ->
  fst (step self metric epoch) = Ok tt ->
  counter_within_patience (snd (step self metric epoch)) /\
  patience (snd (step self metric epoch)) = patience self.
Proof.
  intros Hp Hn. rewrite step_unfold. set (e := epoch_of self epoch).
  assert (H2 : patience (after_metric self metric e) = patience self /\
               0 <= num_bad_epochs (after_metric self metric e)).
  { unfold after_metric. destruct (_is_better self metric (best self));
      simpl; split; try reflexivity; lia. }
  destruct H2 as [P2 N2]. intros H.
  destruct (@after_patience_counter (after_metric self metric e) e)
    as [C1 C2]; try assumption; try lia.
  split; [exact C1|congruence].
Qed.

Lemma steps_counter (calls : list (pyfloat * option Z)) :
  forall self,
  0 <= patience self -> counter_within_patience self ->
  fst (steps self calls) = Ok tt ->
  counter_within_patience (snd (steps self calls)) /\
  patience (snd (steps self calls)) = patience self.
Proof.
  induction calls as [|[metric epoch] rest IH]; intros self Hp Hc; simpl.
  - auto.
  - pose proof (@step_counter self metric epoch Hp (proj1 Hc)) as S1.
    destruct (step self metric epoch) as [[[]|ex] s1]; simpl in *;
      [|discriminate].
    destruct (S1 eq_refl) as [C1 P1]. intros H.
    destruct (IH s1) as [C2 P2]; try assumption; try lia.
    split; [exact C2|congruence].
Qed.

(** [C9], as amended.  For a labeler constructed with a patience that is
    not negative, after every run of [step] calls that return, the counter
    satisfies [0 <= num_bad_epochs <= patience]. *)
Theorem counter_bounded_by_patience
    act ct both md fac pat thr tmd mct ep vb self
    (calls : list (pyfloat * option Z)) :
  __init__ act ct both md fac pat thr tmd mct ep vb = Ok self ->
  0 <= pat ->
  fst (steps self calls) = Ok tt ->
  0 <= num_bad_epochs (snd (steps self calls)) <= pat.
Proof.
  intros Hinit Hp Hok.
  destruct (init_ok_fields _ _ _ _ _ _ _ _ _ _ _ Hinit)
    as (_ & _ & P & N & _).
  destruct (@steps_counter calls self) as [C1 C2]; try assumption.
  - lia.
  - unfold counter_within_patience. lia.
  - unfold counter_within_patience in C1. lia.
Qed.

Lemma counter_bounded_by_patience_witness :
  0 <= num_bad_epochs (snd (steps demo plateau)) <= default_patience.
Proof.
  apply (@counter_bounded_by_patience None (Some (Fin (9 # 10))) true "min"
           default_factor default_patience default_threshold "abs"
           default_min_ct default_eps true demo plateau).
  - reflexivity.
  - vm_compute. discriminate.
  - reflexivity.
Defined.

(** [C9], as stated, fails: a labeler built with patience -1 has its
    counter at zero, above the patience, after a call of [step]. *)
Lemma negative_patience_counter_above :
  __init__ None (Some (Fin (9 # 10))) true "min" default_factor (-1)
           default_threshold "abs" default_min_ct default_eps true
  = Ok hasty /\
  fst (step hasty (Fin 1) None) = Ok tt /\
  ~ counter_within_patience (snd (step hasty (Fin 1) None)).
Proof.
  split; [reflexivity|]. split; [reflexivity|].
  unfold counter_within_patience. vm_compute. intros [_ H]. now apply H.
Qed.

(** *** Construction *)

Lemma in2_false (x a b : string) :
  in2 x a b = false <-> x <> a /\ x <> b.
Proof.
  unfold in2.
  destruct (String.eqb_spec x a), (String.eqb_spec x b); simpl;
    split; intros H; try discriminate; try tauto; destruct H; congruence.
Qed.

(** [C7] [__init__] raises a [ValueError] exactly when [mode] is neither
    'min' nor 'max', or [factor >= 1.0], or [threshold_mode] is neither
    'rel' nor 'abs'; for all other arguments it returns a labeler. *)
Theorem init_raises_iff_invalid act ct both md fac pat thr tmd mct ep vb :
  let r := __init__ act ct both md fac pat thr tmd mct ep vb in
  let invalid := (md <> "min" /\ md <> "max") \/ fgeb fac f1 = true \/
                 (tmd <> "rel" /\ tmd <> "abs") in
  ((exists msg, r = Raise (ValueError msg)) <-> invalid) /\
  ((exists self, r = Ok self) <-> ~ invalid).
Proof.
  cbv zeta. unfold __init__.
  rewrite <- !in2_false.
  destruct (in2 md "min" "max"), (fgeb fac f1), (in2 tmd "rel" "abs"); simpl;
    (split; (split; [intros [x H] | intros H]));
    try discriminate H;
    try (eexists; reflexivity);
    try (now auto);
    try (intuition discriminate);
    exfalso; apply H; auto.
Qed.

End ScheduledFacts.

(** ** Masks *)

Lemma passes_both_sides_kept (ct x : pyfloat) :
  passes_both_sides ct (fsub f1 ct) x = kept true ct x.
Proof. reflexivity. Qed.

(** With a threshold of at most one half the two tests of two-sided
    masking cover every number. *)
Lemma kept_both_sides_low_threshold (ct x : pyfloat) :
  fleb ct half = true -> is_nan x = false -> kept true ct x = true.
Proof.
  unfold kept, fleb, fgeb, half.
  destruct ct as [a| | |], x as [q| | |]; cbn [fcompare fsub f1 is_nan];
    try discriminate; try reflexivity.
  intros Ha _.
  assert (La : (a <= 1 # 2)%Q).
  { apply Qle_alt. destruct (a ?= 1 # 2)%Q; discriminate. }
  destruct (q ?= a)%Q eqn:E; try reflexivity.
  assert (Lq : (q < a)%Q) by (exact (proj2 (Qlt_alt q a) E)).
  assert (L : (q ?= Qred (1 - a))%Q = Lt).
  { apply (proj1 (Qlt_alt q (Qred (1 - a)))). rewrite Qred_correct. lra. }
  now rewrite L.
Qed.

Module MaskFacts.

Example one_sided_mask :
  Default.__call__ Default.one_sided Default.echo
    (vec [f1; Fin (3 # 4); half; f0])
  = Ok (vec [f1; Fin (3 # 4); half; f0],
        Some (TBool (vec [true; true; false; false]))).
Proof. reflexivity. Qed.

(** [C8], as amended.  With a confidence threshold of at most 0.5 the
    two-sided mask of [DefaultPseudoLabeler] and of
    [ScheduledPseudoLabeler] is 1 at every position whose prediction is
    not NaN; on a tensor without NaN it is identically 1. *)
Theorem low_threshold_keeps_every_number :
  (forall (self : Default.DefaultPseudoLabeler) labels ct,
      Default.confidence_threshold self = Some ct ->
      fleb ct half = true ->
      exists m,
        Default._compute_label_mask_both_sides self labels = Ok (TFloat m) /\
        (forall p x, tget labels p = Some x -> is_nan x = false ->
                     tget m p = Some f1) /\
        ((forall p x, tget labels p = Some x -> is_nan x = false) ->
         all_ones m)) /\
  (forall (self : Scheduled.ScheduledPseudoLabeler) labels ct,
      Scheduled.confidence_threshold self = Some ct ->
      fleb ct half = true ->
      exists m,
        Scheduled._compute_label_mask_both_sides self labels
        = Ok (TFloat m) /\
        (forall p x, tget labels p = Some x -> is_nan x = false ->
                     tget m p = Some f1) /\
        ((forall p x, tget labels p = Some x -> is_nan x = false) ->
         all_ones m)).
Proof.
  assert (K : forall ct labels, fleb ct half = true ->
              let m := tmap bool_to_float
                         (tmap (passes_both_sides ct (fsub f1 ct)) labels) in
              (forall p x, tget labels p = Some x -> is_nan x = false ->
                           tget m p = Some f1) /\
              ((forall p x, tget labels p = Some x -> is_nan x = false) ->
               all_ones m)).
  { intros ct labels Hct m. subst m. split.
    - intros p x Hx Hn. rewrite !tget_tmap, Hx. simpl.
      rewrite passes_both_sides_kept.
      now rewrite kept_both_sides_low_threshold.
    - intros Hall p y. rewrite !tget_tmap.
      destruct (tget labels p) as [x|] eqn:Hx; simpl; [|discriminate].
      rewrite passes_both_sides_kept.
      rewrite kept_both_sides_low_threshold by eauto.
      intros H. now injection H as <-. }
  split; intros self labels ct Hself Hct.
  - unfold Default._compute_label_mask_both_sides. rewrite Hself.
    eexists. split; [reflexivity|]. now apply K.
  - unfold Scheduled._compute_label_mask_both_sides. rewrite Hself.
    eexists. split; [reflexivity|]. now apply K.
Qed.

Lemma low_threshold_keeps_every_number_witness :
  exists m,
    Default._compute_label_mask_both_sides Default.two_sided_half
      (vec [f1; half; f0]) = Ok (TFloat m) /\
    tget m [1%nat] = Some f1.
Proof.
  destruct low_threshold_keeps_every_number as (D & _).
  destruct (D Default.two_sided_half (vec [f1; half; f0]) half
              eq_refl eq_refl) as (m & H1 & H2 & _).
  exists m. split; [exact H1|].
  apply (H2 [1%nat] half); reflexivity.
Defined.

(** [C8], as stated, fails: a NaN prediction passes neither test, so its
    mask entry is 0 even with the threshold at 0.5. *)
Lemma nan_prediction_is_masked_out :
  fleb half half = true /\
  exists m,
    Default._compute_label_mask_both_sides Default.two_sided_half
      (vec [NaN; f1]) = Ok (TFloat m) /\
    ~ all_ones m.
Proof.
  split; [reflexivity|]. exists (vec [f0; f1]). split; [reflexivity|].
  intros H. specialize (H [0%nat] f0 eq_refl). discriminate H.
Qed.

End MaskFacts.

(** ** [step] of the unscheduled labelers *)

Module StepFacts.

(** [C10] [DefaultPseudoLabeler.step] and [ProbabilisticPseudoLabeler.step]
    return [None] and leave the labeler as it was, for every argument;
    [ScheduledPseudoLabeler.step] does change its labeler. *)
Theorem unscheduled_step_is_noop :
  (forall (self : Default.DefaultPseudoLabeler) (epoch : Z),
      Default.step self epoch = (tt, self)) /\
  (forall (self : Probabilistic.ProbabilisticPseudoLabeler) (epoch : Z),
      Probabilistic.step self epoch = (tt, self)) /\
  (exists (self : Scheduled.ScheduledPseudoLabeler) metric epoch,
      snd (Scheduled.step self metric epoch) <> self).
Proof.
  split; [reflexivity|]. split; [reflexivity|].
  exists Scheduled.demo, (Fin 1), None. intros H.
  apply (f_equal Scheduled.last_epoch) in H. discriminate H.
Qed.

End StepFacts.

(** ** The probabilistic labeler *)

Module ProbabilisticFacts.
Import Probabilistic.

Section AnyTeacher.
Variable St : Type.
Variable teacher : sampler St.

(** Case analysis along the branches of [__call__]. *)
Ltac branches :=
  repeat match goal with
         | |- context [match ?x with _ => _ end] => destruct x eqn:?
         end;
  simpl in *; try discriminate.

(** Whenever [__call__] returns, the pseudo-label is the mean of the
    samples drawn after [forward]. *)
Lemma call_label_is_sample_mean (self : ProbabilisticPseudoLabeler) (st : St)
    (input_ labels : tensor pyfloat) (mask : option anytensor) :
  fst (__call__ teacher self st input_) = Ok (labels, mask) ->
  let act := match activation self with
             | Some a => a
             | None => fun x => x
             end in
  stack_mean
    (fst (draw teacher act (Z.to_nat (prior_samples self))
            (forward teacher st input_)))
    (prior_samples self)
  = Ok labels.
Proof.
  unfold __call__. cbv zeta.
  destruct (draw teacher _ (Z.to_nat (prior_samples self))
              (forward teacher st input_)) as [samples st'].
  simpl fst at 2.
  destruct (stack_mean samples (prior_samples self)) as [avg|e];
    [|discriminate].
  branches; intros H; injection H as H1 H2; now subst.
Qed.

(** The mask is computed from the averaged tensor alone: it is the mean,
    over the slices of the average along its first axis, of the threshold
    test of those slices. *)
Lemma call_mask_reads_the_average (self : ProbabilisticPseudoLabeler)
    (st : St) (input_ labels mask : tensor pyfloat) (ct : pyfloat) :
  confidence_threshold self = Some ct ->
  fst (__call__ teacher self st input_) = Ok (labels, Some (TFloat mask)) ->
  exists slices,
    iter labels = Ok slices /\
    stack_mean
      (map (tmap (fun x =>
                    bool_to_float (kept (threshold_from_both_sides self) ct x)))
           slices)
      (prior_samples self)
    = Ok mask.
Proof.
  intros Hct. unfold __call__. cbv zeta.
  destruct (draw teacher _ (Z.to_nat (prior_samples self))
              (forward teacher st input_)) as [samples st'].
  destruct (stack_mean samples (prior_samples self)) as [avg|e];
    [|discriminate].
  rewrite Hct.
  unfold _compute_label_mask_both_sides, _compute_label_mask_one_side.
  rewrite Hct. simpl iterate.
  destruct (iter avg) as [slices|e] eqn:Hit.
  - destruct (threshold_from_both_sides self);
      (destruct (stack_mean _ (prior_samples self)) as [m|e] eqn:Hm;
       [|discriminate]);
      destruct (consensus_masking self); simpl; try discriminate;
      intros H; injection H as <- <-; exists slices; auto.
  - destruct (threshold_from_both_sides self); discriminate.
Qed.

(** Without a positive number of prior samples there is nothing to stack
    and [__call__] raises. *)
Lemma call_raises_without_samples (self : ProbabilisticPseudoLabeler)
    (st : St) (input_ : tensor pyfloat) :
  (prior_samples self <= 0)%Z ->
  fst (__call__ teacher self st input_) = Raise RuntimeError.
Proof.
  intros H. unfold __call__. cbv zeta.
  replace (Z.to_nat (prior_samples self)) with O by lia.
  reflexivity.
Qed.

End AnyTeacher.

(** [C1] at a concrete call: two prior samples for a batch of two
    one-pixel images, one-sided threshold 0.75.  The pseudo-label is the
    average of the samples.  The mask the code returns is computed from
    that average, sliced along the batch axis, and has lost the batch
    axis; the average of the per-sample masks is another tensor. *)
Theorem soft_mask_thresholds_the_average :
  fst (__call__ queue_teacher soft [sample_a; sample_b] (vec []))
  = Ok (Stack [vec [half]; vec [f1]], Some (TFloat (vec [half]))) /\
  fst (spec_call queue_teacher soft [sample_a; sample_b] (vec []))
  = Ok (Stack [vec [half]; vec [f1]],
        Some (TFloat (Stack [vec [half]; vec [f1]]))).
Proof. split; reflexivity. Qed.

(** [C5] at a concrete call: two prior samples for one one-pixel image,
    both equal to 1 and so both above the threshold 0.75.  With consensus
    masking the code returns 0 for the pixel, where full agreement of the
    samples asks for 1. *)
Theorem consensus_mask_misses_agreement :
  fst (__call__ queue_teacher strict [sample_one; sample_one] (vec []))
  = Ok (Stack [vec [f1]], Some (TInt (vec [0%Z]))) /\
  fst (spec_call queue_teacher strict [sample_one; sample_one] (vec []))
  = Ok (Stack [vec [f1]], Some (TInt (Stack [vec [1%Z]]))).
Proof. split; reflexivity. Qed.

End ProbabilisticFacts.

(** * Further properties *)

(** ** More on the order on floats *)

Lemma fltb_fgtb (x y : pyfloat) : fltb x y = fgtb y x.
Proof.
  unfold fltb, fgtb. rewrite (fcompare_antisym x y).
  now destruct (fcompare x y) as [[| |]|].
Qed.

Lemma fltb_irrefl (x : pyfloat) : fltb x x = false.
Proof.
  unfold fltb. destruct x as [a| | |]; simpl; try reflexivity.
  assert (E : (a ?= a)%Q = Eq) by (apply Qeq_alt; reflexivity).
  now rewrite E.
Qed.

Lemma fltb_fleb (x y : pyfloat) : fltb x y = true -> fleb x y = true.
Proof. unfold fltb, fleb. now destruct (fcompare x y) as [[| |]|]. Qed.

Lemma fleb_fgeb (x y : pyfloat) : fleb x y = fgeb y x.
Proof.
  unfold fleb, fgeb. rewrite (fcompare_antisym x y).
  now destruct (fcompare x y) as [[| |]|].
Qed.

Lemma Qcompare_lt (a b : Q) : (a ?= b)%Q = Lt <-> (a < b)%Q.
Proof. split; intros H; [exact (proj2 (Qlt_alt a b) H) | exact (proj1 (Qlt_alt a b) H)]. Qed.

Lemma Qcompare_gt (a b : Q) : (a ?= b)%Q = Gt <-> (b < a)%Q.
Proof. split; intros H; [exact (proj2 (Qgt_alt a b) H) | exact (proj1 (Qgt_alt a b) H)]. Qed.

Lemma Qcompare_le (a b : Q) : (a ?= b)%Q <> Gt <-> (a <= b)%Q.
Proof. split; intros H; [exact (proj2 (Qle_alt a b) H) | exact (proj1 (Qle_alt a b) H)]. Qed.

Lemma fltb_Fin (a b : Q) : fltb (Fin a) (Fin b) = true <-> (a < b)%Q.
Proof.
  unfold fltb. cbn [fcompare]. rewrite <- Qcompare_lt.
  destruct (a ?= b)%Q; split; intros H; try reflexivity; discriminate.
Qed.

Lemma fgtb_Fin (a b : Q) : fgtb (Fin a) (Fin b) = true <-> (b < a)%Q.
Proof. rewrite <- fltb_fgtb. apply fltb_Fin. Qed.

Lemma fleb_Fin (a b : Q) : fleb (Fin a) (Fin b) = true <-> (a <= b)%Q.
Proof.
  unfold fleb. cbn [fcompare]. rewrite <- Qcompare_le.
  destruct (a ?= b)%Q; split; intros H; try reflexivity; try discriminate;
    try congruence.
Qed.

Lemma fgeb_Fin (a b : Q) : fgeb (Fin a) (Fin b) = true <-> (b <= a)%Q.
Proof. rewrite <- fleb_fgeb. apply fleb_Fin. Qed.

Lemma fltb_trans (x y z : pyfloat) :
  fltb x y = true -> fltb y z = true -> fltb x z = true.
Proof.
  destruct x as [a| | |], y as [b| | |], z as [c| | |];
    try discriminate; try reflexivity.
  rewrite !fltb_Fin. apply Qlt_trans.
Qed.

Lemma fleb_trans (x y z : pyfloat) :
  fleb x y = true -> fleb y z = true -> fleb x z = true.
Proof.
  destruct x as [a| | |], y as [b| | |], z as [c| | |];
    try discriminate; try reflexivity.
  rewrite !fleb_Fin. apply Qle_trans.
Qed.

(** A difference above a tolerance that is not negative shows a strict
    decrease. *)
Lemma fsub_gt_tolerance (a b e : pyfloat) :
  fgtb (fsub a b) e = true -> fgeb e f0 = true -> fltb b a = true.
Proof.
  destruct a as [a| | |], b as [b| | |], e as [e| | |];
    try discriminate; try reflexivity.
  unfold f0. cbn [fsub]. rewrite fgtb_Fin, fgeb_Fin, fltb_Fin.
  rewrite Qred_correct. intros H1 H2. lra.
Qed.

(** Taking off a non-negative margin, or adding one, only makes the test
    against [best] harder. *)
Lemma fltb_minus_margin (a b : pyfloat) (t : Q) :
  (0 <= t)%Q -> fltb a (fsub b (Fin t)) = true -> fltb a b = true.
Proof.
  intros Ht. destruct a as [a| | |], b as [b| | |];
    try discriminate; try reflexivity.
  cbn [fsub]. rewrite !fltb_Fin, Qred_correct. lra.
Qed.

Lemma fgtb_plus_margin (a b : pyfloat) (t : Q) :
  (0 <= t)%Q -> fgtb a (fadd b (Fin t)) = true -> fgtb a b = true.
Proof.
  intros Ht. destruct a as [a| | |], b as [b| | |];
    try discriminate; try reflexivity.
  cbn [fadd]. rewrite !fgtb_Fin, Qred_correct. lra.
Qed.

(** Lowering the threshold raises one minus the threshold. *)
Lemma fsub_one_antitone (c c' : pyfloat) :
  fleb c' c = true -> fleb (fsub f1 c) (fsub f1 c') = true.
Proof.
  destruct c as [a| | |], c' as [b| | |]; try discriminate; try reflexivity.
  unfold f1. cbn [fsub]. rewrite !fleb_Fin, !Qred_correct. lra.
Qed.

Lemma kept_lower_threshold (both : bool) (c c' x : pyfloat) :
  fleb c' c = true -> kept both c x = true -> kept both c' x = true.
Proof.
  intros Hc. unfold kept.
  assert (G : fgeb x c = true -> fgeb x c' = true).
  { rewrite <- !fleb_fgeb. intros H. exact (fleb_trans _ _ _ Hc H). }
  destruct both; [|exact G].
  rewrite !orb_true_iff. intros [H|H]; [left; now apply G|right].
  exact (fleb_trans _ _ _ H (fsub_one_antitone _ _ Hc)).
Qed.

(** ** More on the scheduler *)

Module ScheduledMore.
Import Scheduled ScheduledFacts.

Local Open Scope string_scope.
Local Open Scope Z_scope.

Lemma new_ct_same_config (a b : ScheduledPseudoLabeler) (c : pyfloat) :
  same_config a b -> new_ct b c = new_ct a c.
Proof.
  intros (_ & Hf & _ & _ & Ht & Hm & _). unfold new_ct.
  now rewrite Hf, Ht, Hm.
Qed.

(** Along a run of [step] calls a relation that every call keeps is kept,
    whether or not the run ends with an exception. *)
Lemma steps_keep (R : ScheduledPseudoLabeler -> ScheduledPseudoLabeler -> Prop) :
  (forall s, R s s) ->
  (forall a b c, R a b -> R b c -> R a c) ->
  (forall s m e, R s (snd (step s m e))) ->
  forall calls s, R s (snd (steps s calls)).
Proof.
  intros Hrefl Htrans Hstep.
  induction calls as [|[m e] rest IH]; intros s; simpl.
  - apply Hrefl.
  - specialize (Hstep s m e).
    destruct (step s m e) as [[u|ex] s1]; simpl in *.
    + exact (Htrans _ _ _ Hstep (IH s1)).
    + exact Hstep.
Qed.

(** What a call of [step] can do to the threshold: nothing, or replace it
    by the candidate of [_reduce_ct], which was lower by more than [eps]. *)
Lemma step_threshold_cases (self : ScheduledPseudoLabeler) (m : pyfloat)
    (e : option Z) :
  same_config self (snd (step self m e)) /\
  (confidence_threshold (snd (step self m e)) = confidence_threshold self \/
   exists c,
     confidence_threshold self = Some c /\
     fgtb (fsub c (new_ct self c)) (eps self) = true /\
     confidence_threshold (snd (step self m e)) = Some (new_ct self c)).
Proof.
  rewrite step_unfold. set (ep := epoch_of self e).
  destruct (after_metric_frame self m ep) as (F1 & F2).
  set (s2 := after_metric self m ep) in *.
  unfold after_patience. destruct (num_bad_epochs s2 >? patience s2).
  - unfold _reduce_ct. rewrite F1.
    destruct (confidence_threshold self) as [c|] eqn:Hc; simpl.
    + rewrite (new_ct_same_config c F2).
      assert (He : eps s2 = eps self) by (now destruct F2 as (_&_&_&_&_&_&?)).
      rewrite He.
      destruct (fgtb (fsub c (new_ct self c)) (eps self)) eqn:G; simpl.
      * split; [exact F2|]. right. exists c. auto.
      * split; [exact F2|]. left. exact F1.
    + split; [exact F2|]. left. exact F1.
  - simpl. split; [exact F2|]. left. exact F1.
Qed.

(** One call never raises the threshold when [eps] is not negative. *)
Lemma step_threshold_not_raised (self : ScheduledPseudoLabeler) (m : pyfloat)
    (e : option Z) (c : pyfloat) :
  fgeb (eps self) f0 = true ->
  confidence_threshold self = Some c ->
  exists c', confidence_threshold (snd (step self m e)) = Some c' /\
             (c' = c \/ fltb c' c = true).
Proof.
  intros He Hc.
  destruct (step_threshold_cases self m e) as (_ & [H|(c0 & H0 & G & H)]).
  - exists c. rewrite H. auto.
  - rewrite Hc in H0. injection H0 as <-.
    exists (new_ct self c). split; [exact H|]. right.
    exact (fsub_gt_tolerance _ _ _ G He).
Qed.

Lemma steps_threshold_not_raised (self : ScheduledPseudoLabeler)
    (calls : list (pyfloat * option Z)) (c : pyfloat) :
  fgeb (eps self) f0 = true ->
  confidence_threshold self = Some c ->
  exists c', confidence_threshold (snd (steps self calls)) = Some c' /\
             (c' = c \/ fltb c' c = true).
Proof.
  intros He Hc.
  pose (R := fun a b : ScheduledPseudoLabeler =>
               eps b = eps a /\
               (fgeb (eps a) f0 = true ->
                forall x, confidence_threshold a = Some x ->
                exists y, confidence_threshold b = Some y /\
                          (y = x \/ fltb y x = true))).
  assert (H : R self (snd (steps self calls))).
  { apply steps_keep with (R := R).
    - intros s. split; [reflexivity|]. intros _ x Hx. exists x. auto.
    - intros a b d [E1 H1] [E2 H2]. split; [congruence|].
      intros Ha x Hx. destruct (H1 Ha x Hx) as (y & Hy & Hyx).
      rewrite <- E1 in Ha. destruct (H2 Ha y Hy) as (z & Hz & Hzy).
      exists z. split; [exact Hz|].
      destruct Hzy as [->|Hzy]; [exact Hyx|].
      destruct Hyx as [->|Hyx]; [now right|].
      right. exact (fltb_trans _ _ _ Hzy Hyx).
    - intros s m e. split.
      + now destruct (step_threshold_cases s m e) as ((_&_&_&_&_&_&?) & _).
      + intros Hs x Hx. exact (step_threshold_not_raised s m e Hs Hx). }
  exact (proj2 H He c Hc).
Qed.

(** [X1] With an [eps] that is not negative, no run of [step] calls ever
    raises the confidence threshold: after the run it is the one before or
    a lower one. *)
Theorem threshold_never_raised (self : ScheduledPseudoLabeler)
    (calls : list (pyfloat * option Z)) (c : pyfloat) :
  fgeb (eps self) f0 = true ->
  confidence_threshold self = Some c ->
  exists c', confidence_threshold (snd (steps self calls)) = Some c' /\
             (c' = c \/ fltb c' c = true).
Proof. intros He Hc. exact (steps_threshold_not_raised self calls He Hc). Qed.

Lemma threshold_never_raised_witness :
  exists c', confidence_threshold (snd (steps demo plateau)) = Some c' /\
             (c' = Fin (9 # 10) \/ fltb c' (Fin (9 # 10)) = true).
Proof.
  apply (@threshold_never_raised demo plateau (Fin (9 # 10))); reflexivity.
Defined.

(** [X2] The floor absorbs: once the confidence threshold equals [min_ct]
    (a number) and [eps] is not negative, every run of [step] calls
    returns and leaves the threshold at [min_ct]. *)
Theorem threshold_stays_at_floor (self : ScheduledPseudoLabeler)
    (calls : list (pyfloat * option Z)) :
  fgeb (eps self) f0 = true ->
  is_nan (min_ct self) = false ->
  confidence_threshold self = Some (min_ct self) ->
  fst (steps self calls) = Ok tt /\
  confidence_threshold (snd (steps self calls)) = Some (min_ct self).
Proof.
  intros He Hn Hc.
  assert (Hfloor : above_floor self).
  { exists (min_ct self). split; [exact Hc|]. now apply fgeb_refl. }
  destruct (steps_above_floor calls Hfloor) as (R1 & (c1 & R2 & R3) & C).
  split; [exact R1|].
  destruct (steps_threshold_not_raised self calls He Hc) as (c' & H1 & H2).
  rewrite H1 in R2. injection R2 as ->.
  destruct H2 as [->|H2]; [exact H1|].
  assert (Hm : min_ct (snd (steps self calls)) = min_ct self)
    by (now destruct C as (_&_&_&_&_&?&_)).
  rewrite Hm in R3. rewrite <- fleb_fgeb in R3.
  (* min_ct <= c1 < min_ct is impossible *)
  exfalso. pose proof (fltb_fleb _ _ H2) as L.
  unfold fltb in H2. unfold fleb in R3.
  rewrite (fcompare_antisym c1 (min_ct self)) in R3.
  destruct (fcompare c1 (min_ct self)) as [[| |]|]; simpl in *; discriminate.
Qed.

Lemma threshold_stays_at_floor_witness :
  let s := set_confidence_threshold demo (Some default_min_ct) in
  fst (steps s plateau) = Ok tt /\
  confidence_threshold (snd (steps s plateau)) = Some default_min_ct.
Proof.
  intros s. apply (@threshold_stays_at_floor s plateau); reflexivity.
Defined.

(** *** Patience *)

Lemma step_within_patience (self : ScheduledPseudoLabeler) (m : pyfloat)
    (e : option Z) :
  0 <= num_bad_epochs self ->
  num_bad_epochs self + 1 <= patience self ->
  fst (step self m e) = Ok tt /\
  confidence_threshold (snd (step self m e)) = confidence_threshold self /\
  0 <= num_bad_epochs (snd (step self m e)) <= num_bad_epochs self + 1 /\
  patience (snd (step self m e)) = patience self.
Proof.
  intros H0 H1. rewrite step_unfold. unfold after_metric, after_patience.
  destruct (_is_better self m (best self)); simpl.
  - destruct (Z.gtb_spec 0 (patience self)); [lia|]. simpl.
    repeat split; lia.
  - destruct (Z.gtb_spec (num_bad_epochs self + 1) (patience self)); [lia|].
    simpl. repeat split; lia.
Qed.

(** [X3] Patience is honoured: as long as the counter of bad epochs plus
    the number of calls stays within the patience, a run of [step] calls
    returns and leaves the confidence threshold alone, whatever the
    metrics are and whether or not a threshold is set. *)
Theorem threshold_untouched_within_patience
    (calls : list (pyfloat * option Z)) :
  forall self : ScheduledPseudoLabeler,
  0 <= num_bad_epochs self ->
  num_bad_epochs self + Z.of_nat (List.length calls) <= patience self ->
  fst (steps self calls) = Ok tt /\
  confidence_threshold (snd (steps self calls)) = confidence_threshold self.
Proof.
  induction calls as [|[m e] rest IH]; intros self H0 H1.
  - simpl. auto.
  - cbn [List.length] in H1. rewrite Nat2Z.inj_succ in H1.
    destruct (@step_within_patience self m e) as (S1 & S2 & S3 & S4);
      [lia|lia|].
    cbn [steps].
    destruct (step self m e) as [[u|ex] s1]; simpl in *; [|discriminate].
    destruct (IH s1) as [I1 I2]; [lia|lia|].
    split; [exact I1|congruence].
Qed.

Lemma threshold_untouched_within_patience_witness :
  fst (steps demo (repeat (Fin 1, None) 10)) = Ok tt /\
  confidence_threshold (snd (steps demo (repeat (Fin 1, None) 10)))
  = confidence_threshold demo.
Proof.
  apply threshold_untouched_within_patience; vm_compute; discriminate.
Defined.

(** [X4] A labeler without confidence threshold and with a patience that
    is not negative: [step] raises a [TypeError] exactly when the metric
    does not improve and the counter thereby exceeds the patience; the
    counter is then left incremented, not reset, and [best] is as before. *)
Theorem step_without_threshold_raises (self : ScheduledPseudoLabeler)
    (m : pyfloat) (e : option Z) :
  confidence_threshold self = None ->
  0 <= patience self ->
  (fst (step self m e) = Raise TypeError <->
   _is_better self m (best self) = false /\
   num_bad_epochs self + 1 > patience self) /\
  (fst (step self m e) = Raise TypeError ->
   num_bad_epochs (snd (step self m e)) = num_bad_epochs self + 1 /\
   best (snd (step self m e)) = best self) /\
  (fst (step self m e) = Ok tt \/ fst (step self m e) = Raise TypeError).
Proof.
  intros Hc Hp. rewrite step_unfold. unfold after_metric, after_patience.
  destruct (_is_better self m (best self)); simpl.
  - destruct (Z.gtb_spec 0 (patience self)); [lia|]. simpl.
    split; [split; [discriminate|intros [? _]; discriminate]|].
    split; [discriminate|now left].
  - destruct (Z.gtb_spec (num_bad_epochs self + 1) (patience self)).
    + unfold _reduce_ct. simpl. rewrite Hc. simpl.
      split; [split; [intros _; split; [reflexivity|lia]|reflexivity]|].
      split; [auto|now right].
    + simpl. split; [split; [discriminate|intros [_ ?]; lia]|].
      split; [discriminate|now left].
Qed.

Lemma step_without_threshold_raises_witness :
  let s := set_num_bad_epochs
             (set_best (set_confidence_threshold demo None) (Fin 1)) 10 in
  fst (step s (Fin 1) None) = Raise TypeError /\
  num_bad_epochs (snd (step s (Fin 1) None)) = 11.
Proof.
  intros s.
  destruct (@step_without_threshold_raises s (Fin 1) None)
    as (H1 & H2 & _).
  - reflexivity.
  - vm_compute. discriminate.
  - assert (R : fst (step s (Fin 1) None) = Raise TypeError).
    { apply H1. split; [reflexivity|]. vm_compute. reflexivity. }
    split; [exact R|]. exact (proj1 (H2 R)).
Defined.

(** *** The epoch counter *)

Lemma step_last_epoch (self : ScheduledPseudoLabeler) (m : pyfloat)
    (e : option Z) :
  last_epoch (snd (step self m e)) = epoch_of self e.
Proof.
  rewrite step_unfold. unfold after_metric, after_patience, _reduce_ct.
  repeat match goal with
         | |- context [if ?b then _ else _] => destruct b
         | |- context [match ?x with Some _ => _ | None => _ end] => destruct x
         end; reflexivity.
Qed.

(** [X5] When no epoch is passed, [step] counts the epochs itself: after
    a run of calls that return, [last_epoch] has grown by the number of
    calls. *)
Theorem last_epoch_counts_calls (calls : list (pyfloat * option Z)) :
  forall self : ScheduledPseudoLabeler,
  Forall (fun call => snd call = None) calls ->
  fst (steps self calls) = Ok tt ->
  last_epoch (snd (steps self calls))
  = last_epoch self + Z.of_nat (List.length calls).
Proof.
  induction calls as [|[m e] rest IH]; intros self Hall Hok.
  - simpl. lia.
  - inversion Hall as [|? ? He Hrest]; subst. simpl in He. subst e.
    cbn [List.length]. rewrite Nat2Z.inj_succ.
    pose proof (step_last_epoch self m None) as L. cbn [steps] in *.
    destruct (step self m None) as [[u|ex] s1]; simpl in *; [|discriminate].
    rewrite (IH s1 Hrest Hok), L. lia.
Qed.

Lemma last_epoch_counts_calls_witness :
  last_epoch (snd (steps demo plateau)) = 0 + Z.of_nat (List.length plateau).
Proof.
  apply last_epoch_counts_calls.
  - repeat constructor.
  - reflexivity.
Defined.

(** *** What [step] leaves alone *)

Lemma step_frame (self : ScheduledPseudoLabeler) (m : pyfloat)
    (e : option Z) :
  activation (snd (step self m e)) = activation self /\
  threshold_from_both_sides (snd (step self m e))
  = threshold_from_both_sides self /\
  init_kwargs (snd (step self m e)) = init_kwargs self /\
  verbose (snd (step self m e)) = verbose self.
Proof.
  rewrite step_unfold. unfold after_metric, after_patience, _reduce_ct.
  repeat match goal with
         | |- context [if ?b then _ else _] => destruct b
         | |- context [match ?x with Some _ => _ | None => _ end] => destruct x
         end; repeat split.
Qed.

(** [X6] The scheduler arguments, the activation, the masking flag and
    the recorded [init_kwargs] of a constructed labeler survive every run
    of [step] calls; in particular [init_kwargs] keeps reporting the
    threshold given at construction, however far the threshold in use has
    decayed. *)
Theorem steps_keep_construction
    act ct both md fac pat thr tmd mct ep vb self
    (calls : list (pyfloat * option Z)) :
  __init__ act ct both md fac pat thr tmd mct ep vb = Ok self ->
  let s := snd (steps self calls) in
  init_kwargs s = {| kw_confidence_threshold := ct;
                     kw_threshold_from_both_sides := both |} /\
  activation s = act /\ threshold_from_both_sides s = both /\
  mode s = md /\ factor s = fac /\ patience s = pat /\ threshold s = thr /\
  threshold_mode s = tmd /\ min_ct s = mct /\ eps s = ep /\ verbose s = vb.
Proof.
  intros Hinit s.
  assert (H0 : init_kwargs self
               = {| kw_confidence_threshold := ct;
                    kw_threshold_from_both_sides := both |} /\
               activation self = act /\ threshold_from_both_sides self = both /\
               mode self = md /\ factor self = fac /\ patience self = pat /\
               threshold self = thr /\ threshold_mode self = tmd /\
               min_ct self = mct /\ eps self = ep /\ verbose self = vb).
  { revert Hinit. unfold __init__.
    destruct (negb (in2 md "min" "max")); [discriminate|].
    destruct (fgeb fac f1); [discriminate|].
    destruct (negb (in2 tmd "rel" "abs")); [discriminate|].
    intros H. injection H as <-. repeat split. }
  pose (R := fun a b : ScheduledPseudoLabeler =>
               same_config a b /\
               activation b = activation a /\
               threshold_from_both_sides b = threshold_from_both_sides a /\
               init_kwargs b = init_kwargs a /\
               verbose b = verbose a).
  assert (H : R self s).
  { apply steps_keep with (R := R).
    - intros a. split; [apply same_config_refl|]. repeat split.
    - intros a b c (C1 & A1 & B1 & K1 & V1) (C2 & A2 & B2 & K2 & V2).
      split; [exact (same_config_trans C1 C2)|]. repeat split; congruence.
    - intros a m e. split.
      + exact (proj1 (step_threshold_cases a m e)).
      + exact (step_frame a m e). }
  destruct H as ((C1&C2&C3&C4&C5&C6&C7) & A & B & K & V).
  destruct H0 as (I1&I2&I3&I4&I5&I6&I7&I8&I9&I10&I11).
  repeat split; congruence.
Qed.

Lemma steps_keep_construction_witness :
  kw_confidence_threshold (init_kwargs (snd (steps demo plateau)))
  = Some (Fin (9 # 10)) /\
  confidence_threshold (snd (steps demo plateau)) = Some (Fin (17 # 20)).
Proof.
  destruct (@steps_keep_construction None (Some (Fin (9 # 10))) true "min"
              default_factor default_patience default_threshold "abs"
              default_min_ct default_eps true demo plateau eq_refl)
    as (K & _).
  split; [now rewrite K|reflexivity].
Defined.

(** *** The best value *)

Lemma step_best_cases (self : ScheduledPseudoLabeler) (m : pyfloat)
    (e : option Z) :
  (_is_better self m (best self) = false /\
   best (snd (step self m e)) = best self) \/
  (_is_better self m (best self) = true /\
   best (snd (step self m e)) = m).
Proof.
  rewrite step_unfold. unfold after_metric, after_patience.
  destruct (_is_better self m (best self)); [right|left];
    (split; [reflexivity|]).
  - set (s2 := set_num_bad_epochs (set_best _ m) 0).
    destruct (num_bad_epochs s2 >? patience s2); [|reflexivity].
    destruct (reduce_ct_frame s2 (epoch_of self e)) as (_ & F & _).
    destruct (_reduce_ct s2 (epoch_of self e)) as [[u|ex] s3]; exact F.
  - set (s2 := set_num_bad_epochs _ (num_bad_epochs self + 1)).
    destruct (num_bad_epochs s2 >? patience s2); [|reflexivity].
    destruct (reduce_ct_frame s2 (epoch_of self e)) as (_ & F & _).
    destruct (_reduce_ct s2 (epoch_of self e)) as [[u|ex] s3]; exact F.
Qed.

(** [X7] A NaN metric never counts as an improvement, in any mode, and
    [step] leaves [best] as it was. *)
Theorem nan_metric_never_improves (self : ScheduledPseudoLabeler)
    (b : pyfloat) (e : option Z) :
  _is_better self NaN b = false /\
  best (snd (step self NaN e)) = best self.
Proof.
  assert (H : forall b', _is_better self NaN b' = false).
  { intros b'. unfold _is_better.
    repeat match goal with
           | |- context [if ?c then _ else _] => destruct c
           end; reflexivity. }
  split; [apply H|].
  destruct (step_best_cases self NaN e) as [[_ E]|[E _]]; [exact E|].
  rewrite H in E. discriminate E.
Qed.

(** [X8] With the absolute comparison and a margin [threshold] that is
    not negative, [best] only ever moves in the direction of the mode:
    after a call of [step] it is the old value or, for 'min', a smaller
    and, for 'max', a greater one. *)
Theorem best_moves_with_mode (self : ScheduledPseudoLabeler) (m : pyfloat)
    (e : option Z) (t : Q) :
  threshold_mode self = "abs" ->
  threshold self = Fin t ->
  (0 <= t)%Q ->
  (mode self = "min" ->
   best (snd (step self m e)) = best self \/
   fltb (best (snd (step self m e))) (best self) = true) /\
  (mode self = "max" ->
   best (snd (step self m e)) = best self \/
   fgtb (best (snd (step self m e))) (best self) = true).
Proof.
  intros Htm Hthr Ht.
  destruct (step_best_cases self m e) as [[_ E]|[B E]].
  - split; intros _; left; exact E.
  - rewrite E. revert B. unfold _is_better. rewrite Htm, Hthr.
    split; intros Hm; rewrite Hm in B; cbn in B; right.
    + exact (fltb_minus_margin _ _ Ht B).
    + exact (fgtb_plus_margin _ _ Ht B).
Qed.

Lemma best_moves_with_mode_witness :
  best (snd (step demo (Fin 1) None)) = best demo \/
  fltb (best (snd (step demo (Fin 1) None))) (best demo) = true.
Proof.
  destruct (@best_moves_with_mode demo (Fin 1) None (1 # 10000))
    as [H _].
  - reflexivity.
  - reflexivity.
  - vm_compute. discriminate.
  - apply H. reflexivity.
Defined.

(** [X9] The first metric always improves: right after construction, with
    a finite [threshold] (strictly between -1 and 1 for the relative
    comparison), [step] called with a finite metric makes it [best] and
    leaves the counter at zero. *)
Theorem first_metric_becomes_best
    act ct both md fac pat tmd mct ep vb self
    (t m : Q) (e : option Z) :
  __init__ act ct both md fac pat (Fin t) tmd mct ep vb = Ok self ->
  tmd = "abs" \/ (-1 < t < 1)%Q ->
  best (snd (step self (Fin m) e)) = Fin m /\
  num_bad_epochs (snd (step self (Fin m) e)) = 0.
Proof.
  intros Hinit Ht.
  assert (B : _is_better self (Fin m) (best self) = true).
  { revert Hinit. unfold __init__.
    destruct (in2 md "min" "max") eqn:Hmd; [|discriminate].
    destruct (fgeb fac f1); [discriminate|].
    destruct (in2 tmd "rel" "abs") eqn:Htmd; [|discriminate].
    simpl. intros H. injection H as <-.
    unfold _is_better. cbn [mode threshold_mode threshold best].
    unfold in2 in Hmd, Htmd.
    apply orb_true_iff in Hmd. apply orb_true_iff in Htmd.
    assert (P : (Qred (1 - t) ?= 0)%Q = Gt \/ tmd = "abs").
    { destruct Ht as [->|[_ Ht]]; [now right|left].
      apply Qcompare_gt. rewrite Qred_correct. lra. }
    assert (P' : (Qred (t + 1) ?= 0)%Q = Gt \/ tmd = "abs").
    { destruct Ht as [->|[Ht _]]; [now right|left].
      apply Qcompare_gt. rewrite Qred_correct. lra. }
    destruct Hmd as [Hmd|Hmd]; apply String.eqb_eq in Hmd; subst md;
      destruct Htmd as [Htmd|Htmd]; apply String.eqb_eq in Htmd; subst tmd;
      cbn [String.eqb Ascii.eqb Bool.eqb andb fsub fadd fmul f1];
      unfold Qsign;
      try (destruct P as [->|P]; [reflexivity|discriminate P]);
      try (destruct P' as [->|P']; [reflexivity|discriminate P']);
      reflexivity. }
  destruct (step_best_cases self (Fin m) e) as [[E _]|[_ E]];
    [rewrite B in E; discriminate E|].
  split; [exact E|].
  rewrite step_unfold. unfold after_metric. rewrite B.
  set (s2 := set_num_bad_epochs (set_best _ (Fin m)) 0).
  unfold after_patience.
  destruct (num_bad_epochs s2 >? patience s2); [|reflexivity].
  destruct (reduce_ct_frame s2 (epoch_of self e)) as (F & _ & _).
  destruct (_reduce_ct s2 (epoch_of self e)) as [[u|ex] s3]; simpl;
    [reflexivity|exact F].
Qed.

Lemma first_metric_becomes_best_witness :
  best (snd (step demo (Fin 7) None)) = Fin 7 /\
  num_bad_epochs (snd (step demo (Fin 7) None)) = 0.
Proof.
  apply (@first_metric_becomes_best None (Some (Fin (9 # 10))) true "min"
           default_factor default_patience "abs" default_min_ct default_eps
           true demo (1 # 10000) 7 None).
  - reflexivity.
  - left. reflexivity.
Defined.

End ScheduledMore.

(** ** More on the masks *)

Module MaskMore.

(** The mask of [__call__] on given labels, for both unscheduled and
    scheduled labelers. *)
Lemma default_call_keeps (self : Default.DefaultPseudoLabeler)
    teacher input_ ct :
  Default.confidence_threshold self = Some ct ->
  exists labels m,
    Default.__call__ self teacher input_ = Ok (labels, Some m) /\
    labels = match Default.activation self with
             | Some act => act (teacher input_)
             | None => teacher input_
             end /\
    forall p, keeps m p
              = option_map (kept (Default.threshold_from_both_sides self) ct)
                           (tget labels p).
Proof.
  intros Hct. unfold Default.__call__, Default._compute_label_mask_both_sides,
    Default._compute_label_mask_one_side. rewrite Hct.
  destruct (Default.threshold_from_both_sides self);
    eexists; eexists; (split; [reflexivity|]); (split; [reflexivity|]);
    intros p; simpl.
  - rewrite !tget_tmap.
    destruct (tget _ p); simpl; [|reflexivity].
    now rewrite feqb_bool_to_float.
  - now rewrite tget_tmap.
Qed.

Lemma scheduled_call_as_default
    (self : Scheduled.ScheduledPseudoLabeler)
    (teacher : tensor pyfloat -> tensor pyfloat) (input_ : tensor pyfloat) :
  Scheduled.__call__ self teacher input_
  = Default.__call__
      (Default.__init__ (Scheduled.activation self)
                        (Scheduled.confidence_threshold self)
                        (Scheduled.threshold_from_both_sides self))
      teacher input_.
Proof.
  unfold Scheduled.__call__, Default.__call__,
    Scheduled._compute_label_mask_both_sides,
    Scheduled._compute_label_mask_one_side,
    Default._compute_label_mask_both_sides,
    Default._compute_label_mask_one_side.
  simpl.
  destruct (Scheduled.confidence_threshold self); [|reflexivity].
  now destruct (Scheduled.threshold_from_both_sides self).
Qed.

(** [X10] [ScheduledPseudoLabeler.__call__] is
    [DefaultPseudoLabeler.__call__] of a labeler with the same activation,
    current threshold and masking flag: the scheduler state plays no part
    in labelling. *)
Theorem scheduled_call_is_default_call
    (self : Scheduled.ScheduledPseudoLabeler)
    (teacher : tensor pyfloat -> tensor pyfloat) (input_ : tensor pyfloat) :
  Scheduled.__call__ self teacher input_
  = Default.__call__
      (Default.__init__ (Scheduled.activation self)
                        (Scheduled.confidence_threshold self)
                        (Scheduled.threshold_from_both_sides self))
      teacher input_.
Proof. apply scheduled_call_as_default. Qed.

(** [X11] A lower threshold never masks out what a higher one kept: for
    two [DefaultPseudoLabeler]s that differ only in the threshold, every
    position kept under the higher threshold is kept under the lower one,
    with one-sided and with two-sided masking. *)
Theorem lower_threshold_keeps_more
    (act : option (tensor pyfloat -> tensor pyfloat)) (both : bool)
    (hi lo : pyfloat) teacher input_ :
  fleb lo hi = true ->
  exists labels m_hi m_lo,
    Default.__call__ (Default.__init__ act (Some hi) both) teacher input_
    = Ok (labels, Some m_hi) /\
    Default.__call__ (Default.__init__ act (Some lo) both) teacher input_
    = Ok (labels, Some m_lo) /\
    forall p, keeps m_hi p = Some true -> keeps m_lo p = Some true.
Proof.
  intros Hle.
  destruct (@default_call_keeps (Default.__init__ act (Some hi) both)
              teacher input_ hi eq_refl) as (l1 & m1 & C1 & L1 & K1).
  destruct (@default_call_keeps (Default.__init__ act (Some lo) both)
              teacher input_ lo eq_refl) as (l2 & m2 & C2 & L2 & K2).
  simpl in L1, L2, K1, K2. subst l2.
  exists l1, m1, m2. split; [exact C1|]. split; [now rewrite <- L1 in C2|].
  intros p. rewrite K1, K2, <- L1.
  destruct (tget l1 p) as [x|]; simpl; [|discriminate].
  intros H. injection H as H. f_equal.
  exact (kept_lower_threshold both _ _ _ Hle H).
Qed.

Lemma lower_threshold_keeps_more_witness :
  exists labels m_hi m_lo,
    Default.__call__ (Default.__init__ None (Some (Fin (3 # 4))) true)
      Default.echo (vec [f1; half; f0]) = Ok (labels, Some m_hi) /\
    Default.__call__ (Default.__init__ None (Some half) true)
      Default.echo (vec [f1; half; f0]) = Ok (labels, Some m_lo) /\
    forall p, keeps m_hi p = Some true -> keeps m_lo p = Some true.
Proof.
  apply (@lower_threshold_keeps_more None true (Fin (3 # 4)) half
           Default.echo (vec [f1; half; f0])).
  reflexivity.
Defined.

(** [X12] The scheduler only ever opens the mask: with a threshold set
    and an [eps] that is not negative, whatever a scheduled labeler's
    mask keeps before a run of [step] calls it still keeps after the run,
    on the same teacher and input. *)
Theorem scheduled_mask_only_grows
    (self : Scheduled.ScheduledPseudoLabeler)
    (calls : list (pyfloat * option Z)) (ct : pyfloat) teacher input_ :
  Scheduled.confidence_threshold self = Some ct ->
  fgeb (Scheduled.eps self) f0 = true ->
  exists labels m m',
    Scheduled.__call__ self teacher input_ = Ok (labels, Some m) /\
    Scheduled.__call__ (snd (Scheduled.steps self calls)) teacher input_
    = Ok (labels, Some m') /\
    forall p, keeps m p = Some true -> keeps m' p = Some true.
Proof.
  intros Hct He.
  destruct (ScheduledMore.steps_threshold_not_raised self calls He Hct)
    as (c' & Hc' & Hle).
  pose (R := fun a b : Scheduled.ScheduledPseudoLabeler =>
               Scheduled.activation b = Scheduled.activation a /\
               Scheduled.threshold_from_both_sides b
               = Scheduled.threshold_from_both_sides a).
  assert (F : R self (snd (Scheduled.steps self calls))).
  { apply ScheduledMore.steps_keep with (R := R).
    - intros a. split; reflexivity.
    - intros a b c [A1 B1] [A2 B2]. split; congruence.
    - intros a m e.
      destruct (ScheduledMore.step_frame a m e) as (A & B & _).
      split; assumption. }
  destruct F as [FA FB].
  rewrite !scheduled_call_as_default.
  rewrite Hct, Hc', FA, FB.
  destruct (@default_call_keeps
              (Default.__init__ (Scheduled.activation self) (Some ct)
                 (Scheduled.threshold_from_both_sides self))
              teacher input_ ct eq_refl) as (l1 & m1 & C1 & L1 & K1).
  destruct (@default_call_keeps
              (Default.__init__ (Scheduled.activation self) (Some c')
                 (Scheduled.threshold_from_both_sides self))
              teacher input_ c' eq_refl) as (l2 & m2 & C2 & L2 & K2).
  simpl in L1, L2, K1, K2. subst l2.
  exists l1, m1, m2. split; [exact C1|]. split; [now rewrite <- L1 in C2|].
  intros p. rewrite K1, K2, <- L1.
  destruct (tget l1 p) as [x|]; simpl; [|discriminate].
  intros H. injection H as H. f_equal.
  destruct Hle as [->|Hlt]; [exact H|].
  exact (kept_lower_threshold _ _ _ _ (fltb_fleb _ _ Hlt) H).
Qed.

Lemma scheduled_mask_only_grows_witness :
  exists labels m m',
    Scheduled.__call__ Scheduled.demo Default.echo
      (vec [f1; Fin (7 # 8); f0]) = Ok (labels, Some m) /\
    Scheduled.__call__ (snd (Scheduled.steps Scheduled.demo Scheduled.plateau))
      Default.echo (vec [f1; Fin (7 # 8); f0]) = Ok (labels, Some m') /\
    forall p, keeps m p = Some true -> keeps m' p = Some true.
Proof.
  apply (@scheduled_mask_only_grows Scheduled.demo Scheduled.plateau
           (Fin (9 # 10)) Default.echo (vec [f1; Fin (7 # 8); f0]));
    reflexivity.
Defined.

(** [X13] No threshold, no mask: [__call__] of the unscheduled and of the
    scheduled labeler returns [None] for the mask exactly when no
    confidence threshold is set, and so does the probabilistic labeler
    whenever it returns. *)
Theorem mask_is_none_iff_no_threshold :
  (forall (self : Default.DefaultPseudoLabeler) teacher input_,
      (exists labels, Default.__call__ self teacher input_ = Ok (labels, None))
      <-> Default.confidence_threshold self = None) /\
  (forall (self : Scheduled.ScheduledPseudoLabeler) teacher input_,
      (exists labels,
          Scheduled.__call__ self teacher input_ = Ok (labels, None))
      <-> Scheduled.confidence_threshold self = None) /\
  (forall St (teacher : sampler St)
          (self : Probabilistic.ProbabilisticPseudoLabeler) st input_
          labels mask,
      fst (Probabilistic.__call__ teacher self st input_) = Ok (labels, mask) ->
      (mask = None <-> Probabilistic.confidence_threshold self = None)).
Proof.
  split; [|split].
  - intros self teacher input_. unfold Default.__call__,
      Default._compute_label_mask_both_sides,
      Default._compute_label_mask_one_side.
    destruct (Default.confidence_threshold self) as [c|].
    + destruct (Default.threshold_from_both_sides self);
        split; [intros [l H]|intros H| intros [l H]|intros H]; discriminate.
    + split; [reflexivity|]. intros _. eexists. reflexivity.
  - intros self teacher input_. rewrite scheduled_call_as_default.
    unfold Default.__call__, Default._compute_label_mask_both_sides,
      Default._compute_label_mask_one_side. simpl.
    destruct (Scheduled.confidence_threshold self) as [c|].
    + destruct (Scheduled.threshold_from_both_sides self);
        split; [intros [l H]|intros H| intros [l H]|intros H]; discriminate.
    + split; [reflexivity|]. intros _. eexists. reflexivity.
  - intros St teacher self st input_ labels mask.
    unfold Probabilistic.__call__. cbv zeta.
    destruct (Probabilistic.draw teacher _ _ _) as [samples st'].
    destruct (Probabilistic.stack_mean samples _) as [avg|ex];
      [|discriminate].
    destruct (Probabilistic.confidence_threshold self) as [c|].
    + repeat match goal with
             | |- context [match ?x with _ => _ end] => destruct x
             end; simpl; intros H; try discriminate H;
        injection H as _ <-; split; discriminate.
    + simpl. intros H. injection H as _ <-. split; reflexivity.
Qed.

End MaskMore.

(** ** More on the probabilistic labeler *)

Module ProbabilisticMore.
Import Probabilistic.

Section AnyTeacher.
Variable St : Type.
Variable teacher : sampler St.

Lemma draw_length (f : tensor pyfloat -> tensor pyfloat) (n : nat) :
  forall st, List.length (fst (draw teacher f n st)) = n.
Proof.
  induction n as [|n IH]; intros st; simpl; [reflexivity|].
  destruct (sample teacher st) as [x st1]. specialize (IH st1).
  destruct (draw teacher f n st1) as [xs st2]. simpl in *. now rewrite IH.
Qed.

(** [X14] [__call__] samples the teacher exactly [prior_samples] times
    (not at all for a number that is not positive), after one [forward]:
    the teacher is left in the state those draws lead to, whether the call
    returns or raises and whether or not a mask is computed. *)
Theorem call_draws_prior_samples (self : ProbabilisticPseudoLabeler)
    (st : St) (input_ : tensor pyfloat) :
  let act := match activation self with
             | Some a => a
             | None => fun x => x
             end in
  let drawn := draw teacher act (Z.to_nat (prior_samples self))
                 (forward teacher st input_) in
  snd (__call__ teacher self st input_) = snd drawn /\
  List.length (fst drawn) = Z.to_nat (prior_samples self).
Proof.
  cbv zeta. split; [|apply draw_length].
  unfold __call__. cbv zeta.
  destruct (draw teacher _ (Z.to_nat (prior_samples self))
              (forward teacher st input_)) as [samples st'].
  repeat match goal with
         | |- context [match ?x with _ => _ end] => destruct x
         end; reflexivity.
Qed.

End AnyTeacher.

(** [X15] The mask ignores the individual samples: two calls of the same
    labeler, on whatever teachers and inputs, whose drawn samples have the
    same mean return the same pseudo-label and the same mask. *)
Theorem call_depends_on_sample_mean
    (St1 St2 : Type) (teacher1 : sampler St1) (teacher2 : sampler St2)
    (self : ProbabilisticPseudoLabeler) (st1 : St1) (st2 : St2)
    (input1 input2 : tensor pyfloat) :
  let act := match activation self with
             | Some a => a
             | None => fun x => x
             end in
  let n := Z.to_nat (prior_samples self) in
  stack_mean (fst (draw teacher1 act n (forward teacher1 st1 input1)))
             (prior_samples self)
  = stack_mean (fst (draw teacher2 act n (forward teacher2 st2 input2)))
               (prior_samples self) ->
  fst (__call__ teacher1 self st1 input1)
  = fst (__call__ teacher2 self st2 input2).
Proof.
  cbv zeta. unfold __call__. cbv zeta.
  destruct (draw teacher1 _ _ _) as [s1 t1].
  destruct (draw teacher2 _ _ _) as [s2 t2]. simpl fst.
  intros ->.
  repeat match goal with
         | |- context [match ?x with _ => _ end] => destruct x
         end; reflexivity.
Qed.

Lemma call_depends_on_sample_mean_witness :
  fst (__call__ queue_teacher soft [sample_a; sample_b] (vec []))
  = fst (__call__ queue_teacher soft [sample_b; sample_a] (vec [])).
Proof.
  apply (@call_depends_on_sample_mean _ _ queue_teacher queue_teacher soft
           [sample_a; sample_b] [sample_b; sample_a] (vec []) (vec [])).
  reflexivity.
Defined.

(** *** Shapes *)

Lemma shape_tmap {A B : Type} (f : A -> B) :
  forall t : tensor A, shape (tmap f t) = shape t.
Proof.
  fix IH 1. intros [a|ts]; simpl; [reflexivity|].
  rewrite length_map. destruct ts as [|t' ts']; simpl; [reflexivity|].
  now rewrite IH.
Qed.

Lemma tzip_stack_cons {A : Type} (f : A -> A -> A) x xs y ys :
  tzip f (Stack (x :: xs)) (Stack (y :: ys))
  = match tzip f x y, tzip f (Stack xs) (Stack ys) with
    | Some z, Some (Stack zs) => Some (Stack (z :: zs))
    | _, _ => None
    end.
Proof.
  simpl. destruct (tzip f x y) as [z|]; [|reflexivity].
  match goal with
  | |- context [option_map _ (match ?g with _ => _ end)] => destruct g
  end; reflexivity.
Qed.

Lemma tzip_stack_shape {A : Type} (f : A -> A -> A) :
  forall xs ys c,
    tzip f (Stack xs) (Stack ys) = Some c ->
    exists zs, c = Stack zs /\ List.length zs = List.length xs.
Proof.
  induction xs as [|x xs IH]; intros [|y ys] c; try discriminate.
  - simpl. intros H. injection H as <-. now exists [].
  - rewrite tzip_stack_cons.
    destruct (tzip f x y) as [z|]; [|discriminate].
    destruct (tzip f (Stack xs) (Stack ys)) as [[a|zs]|] eqn:E;
      try discriminate.
    intros H. injection H as <-.
    destruct (IH ys _ E) as (zs' & Hz & Hl). injection Hz as <-.
    exists (z :: zs). split; [reflexivity|]. simpl. now rewrite Hl.
Qed.

Lemma shape_tzip {A : Type} (f : A -> A -> A) :
  forall a b c : tensor A, tzip f a b = Some c -> shape c = shape a.
Proof.
  fix IH 1. intros [x|xs] [y|ys] c; try discriminate.
  - simpl. intros H. now injection H as <-.
  - intros H. destruct (tzip_stack_shape f _ _ H) as (zs & -> & Hl).
    cbn [shape]. rewrite Hl. f_equal.
    destruct xs as [|x xs], ys as [|y ys]; try discriminate.
    + simpl in H. now injection H as <-.
    + rewrite tzip_stack_cons in H.
      destruct (tzip f x y) as [z|] eqn:E; [|discriminate].
      destruct (tzip f (Stack xs) (Stack ys)) as [[a|zs']|];
        try discriminate.
      injection H as <-. exact (IH x y z E).
Qed.

Lemma stack_mean_shape (ts : list (tensor pyfloat)) (n : Z)
    (m : tensor pyfloat) :
  stack_mean ts n = Ok m ->
  exists t rest, ts = t :: rest /\ shape m = shape t.
Proof.
  unfold stack_mean, stack. destruct ts as [|t rest]; [discriminate|].
  destruct (forallb _ rest); [|discriminate]. cbn [sum_dim0].
  assert (F : forall l acc s,
             fold_left (fun acc u =>
                          match acc with
                          | Some s => tzip fadd s u
                          | None => None
                          end) l (Some acc) = Some s ->
             shape s = shape acc).
  { induction l as [|u l IH]; intros acc s0; simpl.
    - intros H. now injection H as <-.
    - destruct (tzip fadd acc u) as [s1|] eqn:E.
      + intros H. rewrite (IH _ _ H). exact (shape_tzip _ _ _ E).
      + assert (N : forall l', fold_left
                       (fun acc u => match acc with
                                     | Some s => tzip fadd s u
                                     | None => None
                                     end) l' None = None)
          by (induction l'; simpl; auto).
        rewrite N. discriminate. }
  destruct (fold_left _ rest (Some t)) as [summed|] eqn:E; [|discriminate].
  intros H. injection H as <-. exists t, rest. split; [reflexivity|].
  unfold tdiv. rewrite shape_tmap. exact (F _ _ _ E).
Qed.

Section AnyTeacherShapes.
Variable St : Type.
Variable teacher : sampler St.

(** The mask before the consensus step, with what it is computed from. *)
Lemma call_mask_source (self : ProbabilisticPseudoLabeler) (st : St)
    (input_ labels : tensor pyfloat) (mask : anytensor) :
  fst (__call__ teacher self st input_) = Ok (labels, Some mask) ->
  exists slices masks raw,
    labels = Stack slices /\
    List.length masks = List.length slices /\
    (forall i s, nth_error slices i = Some s ->
                 exists k, nth_error masks i = Some k /\ shape k = shape s) /\
    stack_mean masks (prior_samples self) = Ok raw /\
    mask = (if consensus_masking self
            then TInt (consensus raw) else TFloat raw).
Proof.
  unfold __call__. cbv zeta.
  destruct (draw teacher _ _ _) as [samples st'].
  destruct (stack_mean samples _) as [avg|ex]; [|discriminate].
  destruct (confidence_threshold self) as [c|] eqn:Hc; [|discriminate].
  unfold _compute_label_mask_both_sides, _compute_label_mask_one_side.
  rewrite Hc. simpl iterate.
  destruct avg as [a|slices]; simpl iter.
  - destruct (threshold_from_both_sides self); discriminate.
  - assert (K : forall g : pyfloat -> pyfloat,
               fst match stack_mean (map (tmap g) slices)
                           (prior_samples self) with
                   | Ok lm =>
                       if consensus_masking self
                       then (Ok (Stack slices,
                                 Some (TInt (consensus lm))), st')
                       else (Ok (Stack slices, Some (TFloat lm)), st')
                   | Raise e => (Raise e, st')
                   end = Ok (labels, Some mask) ->
               exists slices0 masks raw,
                 labels = Stack slices0 /\
                 List.length masks = List.length slices0 /\
                 (forall i s, nth_error slices0 i = Some s ->
                    exists k, nth_error masks i = Some k /\
                              shape k = shape s) /\
                 stack_mean masks (prior_samples self) = Ok raw /\
                 mask = (if consensus_masking self
                         then TInt (consensus raw) else TFloat raw)).
    { intros g.
      destruct (stack_mean (map (tmap g) slices) (prior_samples self))
        as [lm|ex] eqn:E; [|discriminate].
      intros H. exists slices, (map (tmap g) slices), lm.
      assert (L : labels = Stack slices /\
                  mask = (if consensus_masking self
                          then TInt (consensus lm) else TFloat lm)).
      { destruct (consensus_masking self); simpl in H;
          injection H as <- <-; auto. }
      destruct L as [L1 L2].
      split; [exact L1|]. split; [apply length_map|].
      split; [|split; [exact E|exact L2]].
      intros i s Hs. exists (tmap g s). rewrite nth_error_map, Hs.
      split; [reflexivity|apply shape_tmap]. }
    destruct (threshold_from_both_sides self); apply K.
Qed.

(** [X16] The mask has lost the first axis of the pseudo-label: whenever
    [__call__] returns a mask, its shape is the shape of the pseudo-label
    without the leading (batch) axis. *)
Theorem call_mask_drops_first_axis (self : ProbabilisticPseudoLabeler)
    (st : St) (input_ labels : tensor pyfloat) (mask : anytensor) :
  fst (__call__ teacher self st input_) = Ok (labels, Some mask) ->
  exists n,
    match mask with
    | TFloat m => shape labels = n :: shape m
    | TInt m => shape labels = n :: shape m
    | TBool _ => False
    end.
Proof.
  intros H.
  destruct (call_mask_source _ _ _ H)
    as (slices & masks & raw & -> & Hlen & Hnth & Hmean & ->).
  destruct (stack_mean_shape _ _ Hmean) as (k & rest & -> & Hshape).
  destruct slices as [|s slices']; [discriminate Hlen|].
  destruct (Hnth O s eq_refl) as (k' & Hk & Hks).
  simpl in Hk. injection Hk as <-.
  exists (List.length (s :: slices')).
  destruct (consensus_masking self); cbn [shape];
    unfold consensus; rewrite ?shape_tmap; now rewrite Hshape, Hks.
Qed.

(** [X17] With consensus masking the mask is binary: whenever [__call__]
    returns, the mask is an integer tensor whose entries are 0 or 1. *)
Theorem consensus_mask_is_binary (self : ProbabilisticPseudoLabeler)
    (st : St) (input_ labels : tensor pyfloat) (mask : anytensor) :
  consensus_masking self = true ->
  fst (__call__ teacher self st input_) = Ok (labels, Some mask) ->
  exists m,
    mask = TInt m /\
    forall p z, tget m p = Some z -> z = 0%Z \/ z = 1%Z.
Proof.
  intros Hc H.
  destruct (call_mask_source _ _ _ H)
    as (slices & masks & raw & _ & _ & _ & _ & ->).
  rewrite Hc. exists (consensus raw). split; [reflexivity|].
  intros p z. unfold consensus. rewrite tget_tmap.
  destruct (tget raw p) as [x|]; simpl; [|discriminate].
  intros E. injection E as <-. destruct (feqb x f1); auto.
Qed.

End AnyTeacherShapes.

Lemma call_mask_drops_first_axis_witness :
  exists n, shape (Stack [vec [half]; vec [f1]]) = n :: shape (vec [half]).
Proof.
  exact (@call_mask_drops_first_axis _ queue_teacher soft
           [sample_a; sample_b] (vec []) (Stack [vec [half]; vec [f1]])
           (TFloat (vec [half])) eq_refl).
Defined.

Lemma consensus_mask_is_binary_witness :
  exists m,
    TInt (vec [0%Z]) = TInt m /\
    forall p z, tget m p = Some z -> z = 0%Z \/ z = 1%Z.
Proof.
  exact (@consensus_mask_is_binary _ queue_teacher strict
           [sample_one; sample_one] (vec []) (Stack [vec [f1]])
           (TInt (vec [0%Z])) eq_refl eq_refl).
Defined.

End ProbabilisticMore.

(** ** The experiment drivers *)

Module DriverFacts.
Import Stdlib.Strings.Ascii.
Import Drivers.

Local Open Scope string_scope.

Section Loops.
Variable World E : Type.
Variable train : string -> string -> World -> outcome E unit * World.

(** The targets [_train_source] trains on when nothing raises. *)
Lemma train_targets_calls (source : string) :
  forall targets w,
    let '(r, calls, _) := train_targets train source targets w in
    Forall (fun call => fst call = source /\ In (snd call) targets /\
                        snd call <> source) calls /\
    (forall u, r = Returns u ->
               calls = map (pair source)
                           (filter (fun t => negb (String.eqb t source))
                                   targets)).
Proof.
  induction targets as [|t rest IH]; intros w; simpl.
  - split; [constructor|reflexivity].
  - destruct (String.eqb_spec t source) as [->|Hne]; simpl.
    + specialize (IH w).
      destruct (train_targets train source rest w) as [[r calls] w'].
      destruct IH as [IH1 IH2]. split; [|exact IH2].
      eapply Forall_impl; [|exact IH1]. simpl. intros c (H1 & H2 & H3). auto.
    + destruct (train source t w) as [[u|e] w1].
      * specialize (IH w1).
        destruct (train_targets train source rest w1) as [[r calls] w'].
        destruct IH as [IH1 IH2]. split.
        -- constructor; [simpl; auto|].
           eapply Forall_impl; [|exact IH1]. simpl.
           intros c (H1 & H2 & H3). auto.
        -- intros v Hv. now rewrite (IH2 v Hv).
      * split; [|discriminate]. constructor; [simpl; auto|constructor].
Qed.

Lemma train_sources_calls
    (train_source : string -> World ->
                    outcome E unit * list (string * string) * World)
    (P : string -> string * string -> Prop)
    (spec : string -> list (string * string)) :
  (forall s w, let '(r, calls, _) := train_source s w in
               Forall (P s) calls /\
               (forall u, r = Returns u -> calls = spec s)) ->
  forall sources w,
    let '(r, calls, _) := train_sources train_source sources w in
    Forall (fun call => exists s, In s sources /\ P s call) calls /\
    (forall u, r = Returns u -> calls = flat_map spec sources).
Proof.
  intros H. induction sources as [|s rest IH]; intros w; simpl.
  - split; [constructor|reflexivity].
  - specialize (H s w).
    destruct (train_source s w) as [[[u|e] calls] w1]; destruct H as [H1 H2].
    + specialize (IH w1).
      destruct (train_sources train_source rest w1) as [[r calls'] w2].
      destruct IH as [IH1 IH2]. split.
      * apply Forall_app. split.
        -- eapply Forall_impl; [|exact H1]. intros c Hc. exists s. auto.
        -- eapply Forall_impl; [|exact IH1]. intros c (s' & Hs' & Hc).
           exists s'. auto.
      * intros v Hv. now rewrite (H2 u eq_refl), (IH2 v Hv).
    + split; [|discriminate].
      eapply Forall_impl; [|exact H1]. intros c Hc. exists s. auto.
Qed.

End Loops.

Lemma filter_other_length (s : string) :
  forall l, NoDup l -> In s l ->
            S (List.length (filter (fun t => negb (String.eqb t s)) l))
            = List.length l.
Proof.
  induction l as [|t l IH]; intros Hnd Hin; [destruct Hin|].
  inversion Hnd as [|? ? Hnot Hnd']; subst. simpl.
  destruct (String.eqb_spec t s) as [->|Hne]; simpl.
  - f_equal. clear IH Hin Hnd.
    induction l as [|x l IHl]; [reflexivity|]. simpl.
    inversion Hnd' as [|? ? Hx Hl]; subst.
    destruct (String.eqb_spec x s) as [->|_]; simpl.
    + exfalso. apply Hnot. now left.
    + f_equal. apply IHl; [|exact Hl]. intros H. apply Hnot. now right.
  - f_equal. apply IH; [exact Hnd'|]. destruct Hin as [->|H]; [easy|exact H].
Qed.

Section Scripts.
Variable World E : Type.
Variable CELL_TYPES : list string.
Variable train : string -> string -> World -> outcome E unit * World.

(** [X18] Neither script ever trains a model on its own source: every
    call of [_train_source_target] that [run_training] makes, up to and
    including one that raises, has a source from [args.cell_types] and a
    different target from the list of targets ([CELL_TYPES], or
    [args.target_ct] where [punet_adamatch] is given one). *)
Theorem run_training_skips_self_pairs (args : Args) (w : World) :
  (let '(_, calls, _) :=
     UnetFixmatch.run_training CELL_TYPES train args w in
   Forall (fun call => In (fst call) (cell_types args) /\
                       In (snd call) CELL_TYPES /\
                       fst call <> snd call) calls) /\
  (let '(_, calls, _) :=
     PunetAdamatch.run_training CELL_TYPES train args w in
   Forall (fun call => In (fst call) (cell_types args) /\
                       In (snd call) (match target_ct args with
                                      | None => CELL_TYPES
                                      | Some l => l
                                      end) /\
                       fst call <> snd call) calls).
Proof.
  split.
  - unfold UnetFixmatch.run_training.
    pose proof (@train_sources_calls World E
                  (UnetFixmatch._train_source CELL_TYPES train args)
                  (fun s call => fst call = s /\ In (snd call) CELL_TYPES /\
                                 snd call <> s)
                  (fun s => map (pair s)
                              (filter (fun t => negb (String.eqb t s))
                                      CELL_TYPES))
                  (fun s w0 => train_targets_calls train s CELL_TYPES w0)
                  (cell_types args) w) as H.
    destruct (train_sources _ (cell_types args) w) as [[r calls] w'].
    destruct H as [H _]. eapply Forall_impl; [|exact H]. simpl.
    intros c (s & Hs & H1 & H2 & H3). subst s. repeat split; auto.
  - unfold PunetAdamatch.run_training.
    set (targets := match target_ct args with
                    | None => CELL_TYPES
                    | Some l => l
                    end).
    pose proof (@train_sources_calls World E
                  (PunetAdamatch._train_source CELL_TYPES train args)
                  (fun s call => fst call = s /\ In (snd call) targets /\
                                 snd call <> s)
                  (fun s => map (pair s)
                              (filter (fun t => negb (String.eqb t s))
                                      targets))
                  (fun s w0 => train_targets_calls train s targets w0)
                  (cell_types args) w) as H.
    destruct (train_sources _ (cell_types args) w) as [[r calls] w'].
    destruct H as [H _]. eapply Forall_impl; [|exact H]. simpl.
    intros c (s & Hs & H1 & H2 & H3). subst s. repeat split; auto.
Qed.

(** [X19] When [run_training] of [punet_adamatch] returns, it has trained
    exactly the ordered pairs (source, target) with the source running
    through [args.cell_types], the target through the target list and
    target different from source, source by source and in list order. *)
Theorem run_training_trains_all_pairs (args : Args) (w w' : World)
    (calls : list (string * string)) :
  PunetAdamatch.run_training CELL_TYPES train args w
  = (Returns tt, calls, w') ->
  calls = flat_map
            (fun s => map (pair s)
                        (filter (fun t => negb (String.eqb t s))
                                (match target_ct args with
                                 | None => CELL_TYPES
                                 | Some l => l
                                 end)))
            (cell_types args).
Proof.
  unfold PunetAdamatch.run_training.
  set (targets := match target_ct args with
                  | None => CELL_TYPES
                  | Some l => l
                  end).
  pose proof (@train_sources_calls World E
                (PunetAdamatch._train_source CELL_TYPES train args)
                (fun s call => fst call = s /\ In (snd call) targets /\
                               snd call <> s)
                (fun s => map (pair s)
                            (filter (fun t => negb (String.eqb t s))
                                    targets))
                (fun s w0 => train_targets_calls train s targets w0)
                (cell_types args) w) as H.
  destruct (train_sources _ (cell_types args) w) as [[r c] w0].
  destruct H as [_ H]. intros E0. injection E0 as -> -> ->.
  exact (H tt eq_refl).
Qed.

(** [X20] With [CELL_TYPES] free of duplicates and every source among
    them, a run of [unet_fixmatch]'s [run_training] that returns has
    trained [len(args.cell_types) * (len(CELL_TYPES) - 1)] models. *)
Theorem run_training_count (args : Args) (w w' : World)
    (calls : list (string * string)) :
  NoDup CELL_TYPES ->
  Forall (fun s => In s CELL_TYPES) (cell_types args) ->
  UnetFixmatch.run_training CELL_TYPES train args w
  = (Returns tt, calls, w') ->
  List.length calls
  = (List.length (cell_types args) * (List.length CELL_TYPES - 1))%nat.
Proof.
  intros Hnd Hin. unfold UnetFixmatch.run_training.
  pose proof (@train_sources_calls World E
                (UnetFixmatch._train_source CELL_TYPES train args)
                (fun s call => fst call = s /\ In (snd call) CELL_TYPES /\
                               snd call <> s)
                (fun s => map (pair s)
                            (filter (fun t => negb (String.eqb t s))
                                    CELL_TYPES))
                (fun s w0 => train_targets_calls train s CELL_TYPES w0)
                (cell_types args) w) as H.
  destruct (train_sources _ (cell_types args) w) as [[r c] w0].
  destruct H as [_ H]. intros E0. injection E0 as -> -> ->.
  rewrite (H tt eq_refl). clear H.
  induction Hin as [|s l Hs Hl IH]; [reflexivity|].
  simpl. rewrite length_app, length_map, IH.
  pose proof (filter_other_length s Hnd Hs) as F. lia.
Qed.

End Scripts.
Lemma run_training_trains_all_pairs_witness :
  [("A172", "BT474"); ("A172", "BV2"); ("BV2", "A172"); ("BV2", "BT474")]
  = flat_map
      (fun s => map (pair s)
                  (filter (fun t => negb (String.eqb t s)) three_types))
      ["A172"; "BV2"].
Proof.
  exact (@run_training_trains_all_pairs unit unit three_types always_trains
           train_args tt tt _ eq_refl).
Defined.

Lemma run_training_count_witness :
  List.length
    [("A172", "BT474"); ("A172", "BV2"); ("BV2", "A172"); ("BV2", "BT474")]
  = (2 * (3 - 1))%nat.
Proof.
  apply (@run_training_count unit unit three_types always_trains
           train_args tt tt).
  - repeat (constructor; [simpl; intuition discriminate|]). constructor.
  - repeat (constructor; [simpl; auto 6|]). constructor.
  - reflexivity.
Defined.

(** *** Names and assertions *)

Lemma append_cancel_l (a b c : string) : a ++ b = a ++ c -> b = c.
Proof.
  induction a as [|x a IH]; simpl; intros H; [exact H|].
  injection H as H. exact (IH H).
Qed.

Lemma append_assoc (a b c : string) : (a ++ b) ++ c = a ++ (b ++ c).
Proof. induction a as [|x a IH]; simpl; [reflexivity|now rewrite IH]. Qed.

(** A separator that occurs in neither head splits in one way only. *)
Lemma split_at_separator (c : Ascii.ascii) :
  forall s s' t t',
    contains c s = false -> contains c s' = false ->
    s ++ String c t = s' ++ String c t' -> s = s' /\ t = t'.
Proof.
  induction s as [|x s IH]; intros [|y s'] t t'; simpl; intros Hs Hs' H.
  - injection H as H. auto.
  - injection H as H _. subst y. rewrite Ascii.eqb_refl in Hs'. discriminate.
  - injection H as H _. subst x. rewrite Ascii.eqb_refl in Hs. discriminate.
  - injection H as Hx H. subst y.
    apply orb_false_iff in Hs. apply orb_false_iff in Hs'.
    destruct (IH s' t t' (proj2 Hs) (proj2 Hs') H) as [-> ->]. auto.
Qed.

Lemma with_pair_injective (name s t s' t' : string) :
  contains "/"%char s = false -> contains "/"%char s' = false ->
  with_pair name s t = with_pair name s' t' -> s = s' /\ t = t'.
Proof.
  unfold with_pair. intros Hs Hs' H.
  apply append_cancel_l in H. simpl in H. injection H as H.
  exact (split_at_separator _ _ _ _ _ Hs Hs' H).
Qed.

Section Names.
Variable format_thresh : option pyfloat -> string.

(** [X21] Within one run (one command line) the trainer names of both
    scripts tell the (source, target) pairs apart, as long as the source
    names contain no slash: two pairs with the same name are the same
    pair, so no two trainings share a checkpoint folder. *)
Theorem trainer_names_distinguish_pairs (args : Args)
    (s t s' t' name : string) :
  contains "/"%char s = false -> contains "/"%char s' = false ->
  (UnetFixmatch.trainer_name format_thresh args s t = Returns name ->
   UnetFixmatch.trainer_name format_thresh args s' t' = Returns name ->
   s = s' /\ t = t') /\
  (PunetAdamatch.trainer_name format_thresh args s t = Returns name ->
   PunetAdamatch.trainer_name format_thresh args s' t' = Returns name ->
   s = s' /\ t = t').
Proof.
  intros Hs Hs'. split.
  - unfold UnetFixmatch.trainer_name. cbv zeta.
    destruct (distribution_alignment args);
      [destruct (output args); [|discriminate]|];
      intros H1 H2; injection H1 as <-; injection H2 as H2;
      symmetry in H2; exact (with_pair_injective _ _ _ _ _ Hs Hs' H2).
  - unfold PunetAdamatch.trainer_name. cbv zeta.
    destruct (confidence_threshold args), (consensus_masking args);
      try discriminate;
      (destruct (distribution_alignment args);
       [destruct (output args); [|discriminate]|]);
      intros H1 H2; injection H1 as <-; injection H2 as H2;
      symmetry in H2; exact (with_pair_injective _ _ _ _ _ Hs Hs' H2).
Qed.

(** [X22] The assertions of [_train_source_target]: [unet_fixmatch] fails
    one exactly when distribution alignment is asked for without an
    output folder; [punet_adamatch] also when consensus masking is asked
    for without a confidence threshold.  Otherwise the trainer gets a
    name. *)
Theorem trainer_name_asserts (args : Args) (s t : string) :
  ((exists a, UnetFixmatch.trainer_name format_thresh args s t = Raises a)
   <-> distribution_alignment args = true /\ output args = None) /\
  ((exists a, PunetAdamatch.trainer_name format_thresh args s t = Raises a)
   <-> (confidence_threshold args = None /\ consensus_masking args = true)
       \/ (distribution_alignment args = true /\ output args = None)).
Proof.
  unfold UnetFixmatch.trainer_name, PunetAdamatch.trainer_name. cbv zeta.
  destruct (confidence_threshold args), (consensus_masking args),
    (distribution_alignment args), (output args);
    (split;
     (split;
      [ intros [a H]; try discriminate H; auto
      | intros H; try (eexists; reflexivity);
        repeat match goal with
               | H : _ /\ _ |- _ => destruct H
               | H : _ \/ _ |- _ => destruct H
               end; discriminate ])).
Qed.

End Names.

Lemma trainer_names_distinguish_pairs_witness :
  "A172" = "A172" /\ "BV2" = "BV2".
Proof.
  destruct (@trainer_names_distinguish_pairs show_thresh train_args
              "A172" "BV2" "A172" "BV2"
              "punet_adamatch/thresh-0.9-masking/A172/BV2"
              eq_refl eq_refl) as [_ H].
  apply H; reflexivity.
Defined.

(** [X23] [punet_adamatch] never builds a consensus-masking labeler
    without a threshold: the labeler [_train_source_target] constructs
    masks from both sides, draws 16 prior samples, and has a confidence
    threshold whenever consensus masking is on; and the construction
    fails exactly when consensus masking is asked for without one. *)
Theorem punet_labeler_has_threshold_for_consensus (args : Args)
    (sigmoid : tensor pyfloat -> tensor pyfloat) :
  ((exists a, PunetAdamatch.pseudo_labeler args sigmoid = Raises a)
   <-> confidence_threshold args = None /\ consensus_masking args = true) /\
  (forall l,
      PunetAdamatch.pseudo_labeler args sigmoid = Returns l ->
      Probabilistic.prior_samples l = 16%Z /\
      Probabilistic.threshold_from_both_sides l = true /\
      Probabilistic.confidence_threshold l = confidence_threshold args /\
      Probabilistic.consensus_masking l = consensus_masking args /\
      (Probabilistic.consensus_masking l = true ->
       Probabilistic.confidence_threshold l <> None)).
Proof.
  unfold PunetAdamatch.pseudo_labeler. cbv zeta.
  destruct (confidence_threshold args), (consensus_masking args); split;
    try (split; [intros [a H]; discriminate H
                |intros [H1 H2]; discriminate]);
    try (split; [intros _; auto|intros _; eexists; reflexivity]);
    intros l H; try discriminate H; injection H as <-; simpl;
    repeat split; try discriminate.
Qed.

(** [X24] [main] starts the loader check for the phases 'c' and 'check',
    training for 't' and 'train', evaluation for 'e' and 'evaluate', and
    raises a [ValueError] for every other phase. *)
Theorem main_phase_dispatch (args : Args) :
  (main_phase args = Ok CheckLoader
   <-> phase args = "c" \/ phase args = "check") /\
  (main_phase args = Ok RunTraining
   <-> phase args = "t" \/ phase args = "train") /\
  (main_phase args = Ok RunEvaluation
   <-> phase args = "e" \/ phase args = "evaluate") /\
  ((exists msg, main_phase args = Raise (ValueError msg))
   <-> ~ In (phase args) ["c"; "check"; "t"; "train"; "e"; "evaluate"]).
Proof.
  unfold main_phase. generalize (phase args). intros p.
  destruct (String.eqb_spec p "c") as [->|N1];
    [|destruct (String.eqb_spec p "check") as [->|N2];
      [|destruct (String.eqb_spec p "t") as [->|N3];
        [|destruct (String.eqb_spec p "train") as [->|N4];
          [|destruct (String.eqb_spec p "e") as [->|N5];
            [|destruct (String.eqb_spec p "evaluate") as [->|N6]]]]]];
    cbn [orb String.eqb Ascii.eqb Bool.eqb andb];
    repeat split; intros H;
    try discriminate H; try reflexivity;
    try (now left); try (now right);
    try (now destruct H as [H|H]; discriminate H);
    try (now destruct H as [msg H]; discriminate H);
    try (now exfalso; apply H; simpl; auto 10);
    try (now destruct H as [H|H]; congruence).
  - simpl. intuition congruence.
  - eexists. reflexivity.
Qed.

End DriverFacts.

(** ** Edge cases and instances *)

Module MoreFacts.

(** [X25] A labeler with a number of prior samples that is not positive
    cannot label: [__call__] runs the teacher's [forward], draws nothing
    and raises a [RuntimeError], with or without a threshold. *)
Theorem call_needs_a_prior_sample (St : Type) (teacher : sampler St)
    (self : Probabilistic.ProbabilisticPseudoLabeler) (st : St)
    (input_ : tensor pyfloat) :
  (Probabilistic.prior_samples self <= 0)%Z ->
  Probabilistic.__call__ teacher self st input_
  = (Raise RuntimeError, forward teacher st input_).
Proof.
  intros H. unfold Probabilistic.__call__. cbv zeta.
  replace (Z.to_nat (Probabilistic.prior_samples self)) with O by lia.
  reflexivity.
Qed.

Lemma call_needs_a_prior_sample_witness :
  Probabilistic.__call__ Probabilistic.queue_teacher
    (Probabilistic.__init__ None None true 0 false)
    [Probabilistic.sample_a] (vec [])
  = (Raise RuntimeError, [Probabilistic.sample_a]).
Proof.
  apply (@call_needs_a_prior_sample _ Probabilistic.queue_teacher
           (Probabilistic.__init__ None None true 0 false)).
  simpl. lia.
Defined.

Lemma mask_is_none_iff_no_threshold_witness :
  (None : option anytensor) = None
  <-> Probabilistic.confidence_threshold
        (Probabilistic.__init__ None None true 2 false) = None.
Proof.
  destruct MaskMore.mask_is_none_iff_no_threshold as (_ & _ & H).
  exact (H _ Probabilistic.queue_teacher
           (Probabilistic.__init__ None None true 2 false)
           [Probabilistic.sample_a; Probabilistic.sample_b] (vec [])
           (Stack [vec [half]; vec [f1]]) None eq_refl).
Defined.

Lemma punet_labeler_has_threshold_for_consensus_witness :
  Probabilistic.confidence_threshold
    (Probabilistic.__init__ (Some Default.echo) (Some (Fin (9 # 10))) true 16
       true)
  <> None.
Proof.
  destruct (DriverFacts.punet_labeler_has_threshold_for_consensus
              Drivers.train_args Default.echo) as [_ H].
  destruct (H _ eq_refl) as (_ & _ & _ & _ & K).
  apply K. reflexivity.
Defined.

End MoreFacts.

(** ** The labelers on machine floats *)

Lemma tensor_nested_ind {A : Type} (P : tensor A -> Prop) :
  (forall a, P (Scalar a)) ->
  (forall ts, Forall P ts -> P (Stack ts)) ->
  forall t, P t.
Proof.
  intros HS HK.
  refine (fix IH (t : tensor A) : P t :=
            match t with
            | Scalar a => HS a
            | Stack ts =>
                HK ts ((fix go (l : list (tensor A)) : Forall P l :=
                          match l with
                          | [] => Forall_nil P
                          | x :: l' => Forall_cons x (IH x) (go l')
                          end) ts)
            end).
Qed.

(** Combining two elementwise images of one tensor is an elementwise
    image of it. *)
Lemma tzip_tmap {A B : Type} (f : B -> B -> B) (g h : A -> B) :
  forall t : tensor A,
    tzip f (tmap g t) (tmap h t) = Some (tmap (fun x => f (g x) (h x)) t).
Proof.
  induction t as [a|ts IH] using tensor_nested_ind; [reflexivity|].
  induction IH as [|t ts Ht Hts IHts]; [reflexivity|].
  change (tmap g (Stack (t :: ts)))
    with (Stack (tmap g t :: map (tmap g) ts)).
  change (tmap h (Stack (t :: ts)))
    with (Stack (tmap h t :: map (tmap h) ts)).
  rewrite ProbabilisticMore.tzip_stack_cons, Ht.
  change (Stack (map (tmap g) ts)) with (tmap g (Stack ts)).
  change (Stack (map (tmap h) ts)) with (tmap h (Stack ts)).
  now rewrite IHts.
Qed.

Module MachineFacts.
Import IEEE.

Local Open Scope string_scope.
Local Open Scope Z_scope.

(** *** Masks *)

Lemma keeps_both_sides (labels : ftensor) (ct : float) :
  exists b,
    bool_add (tensor_ge labels ct) (tensor_le labels (sub64 one ct)) = Some b /\
    forall p,
      keeps (FloatMask (to_float32 b)) p
      = option_map (kept true (dtype_of labels) ct) (tget (values labels) p).
Proof.
  unfold bool_add, tensor_ge, tensor_le. rewrite tzip_tmap.
  eexists. split; [reflexivity|]. intros p. unfold keeps, to_float32.
  cbn [values dtype_of]. rewrite !tget_tmap.
  destruct (tget (values labels) p) as [x|]; [|reflexivity].
  cbn [option_map]. unfold kept. f_equal.
  now destruct (geb x (cast (dtype_of labels) ct)
                || leb x (cast (dtype_of labels) (sub64 one ct))).
Qed.

Lemma keeps_one_side (labels : ftensor) (ct : float) (p : list nat) :
  keeps (BoolMask (tensor_ge labels ct)) p
  = option_map (kept false (dtype_of labels) ct) (tget (values labels) p).
Proof. unfold keeps, tensor_ge. now rewrite tget_tmap. Qed.

(** [C6], as amended.  With a confidence threshold [ct] set, the mask of
    [DefaultPseudoLabeler.__call__] and of
    [ScheduledPseudoLabeler.__call__] on a float32 or float64 prediction
    keeps a position exactly when the prediction there is greater than or
    equal to [ct] rounded to the dtype of the prediction, or, with
    two-sided masking, also when it is less than or equal to [1.0 - ct],
    computed in binary64 and rounded to that dtype. *)
Theorem mask_keeps_rounded_threshold :
  (forall (self : Default.DefaultPseudoLabeler) teacher input_ ct,
      Default.confidence_threshold self = Some ct ->
      let labels := match Default.activation self with
                    | Some act => act (teacher input_)
                    | None => teacher input_
                    end in
      exists m,
        Default.__call__ self teacher input_ = Ok (labels, Some m) /\
        forall p,
          keeps m p
          = option_map (kept (Default.threshold_from_both_sides self)
                             (dtype_of labels) ct)
                       (tget (values labels) p)) /\
  (forall (self : Scheduled.ScheduledPseudoLabeler) teacher input_ ct,
      Scheduled.confidence_threshold self = Some ct ->
      let labels := match Scheduled.activation self with
                    | Some act => act (teacher input_)
                    | None => teacher input_
                    end in
      exists m,
        Scheduled.__call__ self teacher input_ = Ok (labels, Some m) /\
        forall p,
          keeps m p
          = option_map (kept (Scheduled.threshold_from_both_sides self)
                             (dtype_of labels) ct)
                       (tget (values labels) p)).
Proof.
  split.
  - intros self teacher input_ ct Hct labels.
    unfold Default.__call__, Default._compute_label_mask_both_sides,
      Default._compute_label_mask_one_side.
    fold labels. rewrite Hct.
    destruct (Default.threshold_from_both_sides self).
    + destruct (keeps_both_sides labels ct) as (b & Hb & Hk).
      rewrite Hb. eexists. split; [reflexivity|exact Hk].
    + eexists. split; [reflexivity|]. intros p. apply keeps_one_side.
  - intros self teacher input_ ct Hct labels.
    unfold Scheduled.__call__, Scheduled._compute_label_mask_both_sides,
      Scheduled._compute_label_mask_one_side.
    fold labels. rewrite Hct.
    destruct (Scheduled.threshold_from_both_sides self).
    + destruct (keeps_both_sides labels ct) as (b & Hb & Hk).
      rewrite Hb. eexists. split; [reflexivity|exact Hk].
    + eexists. split; [reflexivity|]. intros p. apply keeps_one_side.
Qed.

Lemma mask_keeps_rounded_threshold_witness :
  exists m,
    Default.__call__ (Default.__init__ None (Some (lit 9 10)) true) echo
      (vec32 [lit 9 10; lit 5 10; lit 1 10])
    = Ok (vec32 [lit 9 10; lit 5 10; lit 1 10], Some m) /\
    forall p,
      keeps m p
      = option_map (kept true Float32 (lit 9 10))
          (tget (values (vec32 [lit 9 10; lit 5 10; lit 1 10])) p).
Proof.
  destruct mask_keeps_rounded_threshold as (D & _).
  exact (D (Default.__init__ None (Some (lit 9 10)) true) echo
           (vec32 [lit 9 10; lit 5 10; lit 1 10]) (lit 9 10) eq_refl).
Defined.

(** With threshold 0.9 from both sides, the float32 numbers nearest to
    0.9 and to 0.1 are kept, 0.5 is not. *)
Example two_sided_mask_float32 :
  Default.__call__ (Default.__init__ None (Some (lit 9 10)) true) echo
    (vec32 [lit 9 10; lit 5 10; lit 1 10])
  = Ok (vec32 [lit 9 10; lit 5 10; lit 1 10],
        Some (FloatMask (to_float32 (vec [true; false; true])))).
Proof. vm_compute. reflexivity. Qed.

(** The same in a scheduled labeler: at threshold 0.5 + 2^-30 from both
    sides the float32 prediction 0.5 is kept. *)
Example scheduled_mask_rounds_threshold :
  Scheduled.__call__ (Scheduled.started Scheduled.c_tight 0
                        Scheduled.default_eps) echo (vec32 [lit 5 10])
  = Ok (vec32 [lit 5 10], Some (FloatMask (to_float32 (vec [true])))).
Proof. vm_compute. reflexivity. Qed.

(** On a float64 tensor the threshold is compared as it is. *)
Example float64_threshold_as_is :
  cast Float64 (lit 9 10) = lit 9 10 /\
  cast Float64 (add64 (lit 75 100) (lit 1 1073741824))
  = add64 (lit 75 100) (lit 1 1073741824).
Proof. split; vm_compute; reflexivity. Qed.

(** [C6], as stated, fails: for the float32 prediction 0.75 and the
    threshold 0.75 + 2^-30, the prediction is strictly below the threshold
    and yet kept, because the threshold is rounded to float32 before the
    comparison. *)
Lemma prediction_below_threshold_is_kept :
  let ct := add64 (lit 75 100) (lit 1 1073741824) in
  let labels := vec32 [lit 75 100; lit 25 100] in
  ltb (exact64 (cast Float32 (lit 75 100))) ct = true /\
  Default.__call__ (Default.__init__ None (Some ct) false) echo labels
  = Ok (labels, Some (BoolMask (vec [true; false]))) /\
  ~ keeps_exactly_above false ct labels (BoolMask (vec [true; false])).
Proof.
  intros ct labels. split; [vm_compute; reflexivity|].
  split; [vm_compute; reflexivity|].
  intros H. specialize (H [0%nat] (cast Float32 (lit 75 100)) eq_refl).
  vm_compute in H. discriminate H.
Qed.

(** *** The plateau rule *)

Import Scheduled.

(** [C4], as amended.  When the metric does not improve and the counter of
    bad epochs thereby exceeds the patience, [step] returns, the counter
    is zero, and the confidence threshold is the decayed one
    ([ct * factor] for 'rel', [ct - factor] for 'abs', and at least
    [min_ct], in binary64 arithmetic) provided that [ct] minus the decayed
    value, rounded, is greater than [eps]; if not, the threshold stays as
    it was. *)
Theorem step_plateau_decays_beyond_eps (self : ScheduledPseudoLabeler)
    (metric : float) (epoch : option Z) (ct : float) :
  confidence_threshold self = Some ct ->
  _is_better self metric (best self) = false ->
  num_bad_epochs self + 1 > patience self ->
  fst (step self metric epoch) = Ok tt /\
  num_bad_epochs (snd (step self metric epoch)) = 0 /\
  confidence_threshold (snd (step self metric epoch))
  = Some (if gtb (sub64 ct (decayed self ct)) (eps self)
          then decayed self ct else ct) /\
  (threshold_mode self = "rel" ->
   decayed self ct = pymax (mul64 ct (factor self)) (min_ct self)) /\
  (threshold_mode self = "abs" ->
   decayed self ct = pymax (sub64 ct (factor self)) (min_ct self)).
Proof.
  intros Hct Hb Hn.
  assert (G : (num_bad_epochs self + 1 >? patience self) = true).
  { apply Z.gtb_lt. lia. }
  assert (D : (if String.eqb (threshold_mode self) "rel"
               then pymax (mul64 ct (factor self)) (min_ct self)
               else pymax (sub64 ct (factor self)) (min_ct self))
              = decayed self ct).
  { unfold decayed. now destruct (String.eqb (threshold_mode self) "rel"). }
  unfold step. cbv zeta.
  change (_is_better (set_last_epoch self _) metric
            (best (set_last_epoch self _)))
    with (_is_better self metric (best self)).
  rewrite Hb. cbn [num_bad_epochs patience set_num_bad_epochs set_last_epoch].
  rewrite G. unfold _reduce_ct.
  cbn [confidence_threshold threshold_mode factor min_ct eps
       set_num_bad_epochs set_last_epoch].
  rewrite Hct, D.
  split; [|split; [|split; [|split]]].
  - now destruct (gtb (sub64 ct (decayed self ct)) (eps self)).
  - now destruct (gtb (sub64 ct (decayed self ct)) (eps self)).
  - now destruct (gtb (sub64 ct (decayed self ct)) (eps self)).
  - intros E. unfold decayed. now rewrite E.
  - intros E. unfold decayed. now rewrite E.
Qed.

(** A plateau at threshold 0.9 with [eps = 0.05]: the difference
    [0.9 - 0.85] is 0.050000000000000044 in binary64, above [eps], and
    the threshold becomes 0.85. *)
Lemma step_plateau_decays_beyond_eps_witness :
  let s := started (lit 9 10) 0 (lit 5 100) in
  fst (step s one None) = Ok tt /\
  num_bad_epochs (snd (step s one None)) = 0 /\
  confidence_threshold (snd (step s one None)) = Some (lit 85 100).
Proof.
  intros s.
  destruct (@step_plateau_decays_beyond_eps s one None (lit 9 10))
    as (H1 & H2 & H3 & _).
  - reflexivity.
  - vm_compute. reflexivity.
  - vm_compute. reflexivity.
  - split; [exact H1|]. split; [exact H2|]. rewrite H3.
    vm_compute. reflexivity.
Defined.

(** The product of 'rel' is rounded as well: [0.9 * 0.05] is
    0.045000000000000005, not the float of 0.045. *)
Example rel_product_is_rounded :
  mul64 (lit 9 10) (lit 5 100)
  = SpecFloat.S754_finite false 6485183463413515 (-57) /\
  lit 45 1000 = SpecFloat.S754_finite false 6485183463413514 (-57).
Proof. split; vm_compute; reflexivity. Qed.

(** [C4], as stated, fails: with the threshold 2^-30 above the floor a
    plateau leaves it where it is, because the decayed value 0.5 is not
    lower by more than [eps] = 1e-8. *)
Lemma plateau_small_decrease_skipped :
  (exists s0,
      __init__ None (Some c_tight) true "min" default_factor 0
               default_threshold "abs" default_min_ct default_eps true
      = Ok s0 /\
      step s0 one None = (Ok tt, started c_tight 0 default_eps)) /\
  confidence_threshold
    (snd (step (started c_tight 0 default_eps) one None))
  = Some c_tight /\
  ~ plateau_always_decays (started c_tight 0 default_eps) one None.
Proof.
  split.
  { eexists. split; [vm_compute; reflexivity|]. vm_compute. reflexivity. }
  split; [vm_compute; reflexivity|].
  intros H. destruct (H c_tight) as [H1 _].
  - reflexivity.
  - vm_compute. reflexivity.
  - vm_compute. reflexivity.
  - vm_compute in H1. discriminate H1.
Qed.

End MachineFacts.
